(** * IPv4 and ICMPv4 header marshalling (net/packet)

    A shallow embedding of [net/packet/ip4.go] and [net/packet/icmp4.go]:
    Go byte slices are windows into a backing array held in an explicit
    store, run-time panics (index or slice bound out of range, an
    explicit [panic]) are the [None] of a state-and-panic monad, and
    fixed-width unsigned integers are [Z] with the wrap-around written
    out at every conversion. *)

From Stdlib Require Import ZArith Lia.
From Stdlib Require Import Strings.Byte Strings.Ascii Strings.String.
From Stdlib Require Import Numbers.DecimalString Numbers.DecimalN.
From stdpp Require Import base option list.
From Equations Require Import Equations.

Local Open Scope Z_scope.

(** ** Fixed-width integers *)

Definition uint16 (z : Z) : Z := z mod 65536.
Definition uint32 (z : Z) : Z := z mod 4294967296.

(** The numeric value of a byte. *)
Definition byte_val (b : byte) : Z := Z.of_N (Byte.to_N b).

(** Go's [uint8(x)] / [byte(x)] conversion: keep the low eight bits. *)
Definition uint8 (z : Z) : byte :=
  default x00 (Byte.of_N (Z.to_N (z mod 256))).

(** ** The store, panics and slices *)

Module Mem.

Abbreviation mem := (list byte).

(** A computation reads and writes the backing array and either
    returns or panics ([None]). *)
Definition M (A : Type) : Type := mem -> option (A * mem).

Definition ret {A} (a : A) : M A := fun m => Some (a, m).

Definition bind {A B} (c : M A) (k : A -> M B) : M B :=
  fun m => match c m with
           | Some (a, m') => k a m'
           | None => None
           end.

Definition panic {A} : M A := fun _ => None.

(** A slice: [size] bytes of the backing array starting at [base].
    Capacity is taken equal to length, so reslicing is checked
    against [size]. *)
Record slice := Slice { base : nat; size : nat }.

(** [len(s)] *)
Definition len (s : slice) : Z := Z.of_nat (size s).

(** The slice a caller holds on a whole buffer. *)
Definition whole (m : mem) : slice := Slice 0 (length m).

(** [s[lo:hi]] *)
Definition sub (s : slice) (lo hi : nat) : M slice :=
  if ((lo <=? hi) && (hi <=? size s))%nat
  then ret (Slice (base s + lo) (hi - lo))
  else panic.

(** [s[i] = b] *)
Definition store (s : slice) (i : nat) (b : byte) : M unit :=
  fun m => if (i <? size s)%nat
           then Some (tt, <[(base s + i)%nat := b]> m)
           else None.

(** [s[i]] *)
Definition load (s : slice) (i : nat) : M byte :=
  fun m => if (i <? size s)%nat
           then match m !! (base s + i)%nat with
                | Some b => Some (b, m)
                | None => None
                end
           else None.

(** The bytes a slice currently views. *)
Definition view (s : slice) (m : mem) : list byte :=
  take (size s) (drop (base s) m).

Definition contents (s : slice) : M (list byte) :=
  fun m => Some (view s m, m).

End Mem.
Import Mem.

Notation "x <- c ;; k" := (bind c (fun x => k))
  (at level 100, c at next level, right associativity).
Notation "c ;;; k" := (bind c (fun _ => k))
  (at level 100, right associativity).

(** ** Helpers of the package that the two files use *)

(** Modelled from the spec: the two error values [errSmallBuffer] and
    [errLargePacket] are declared outside the two source files; §7 names
    them BufferTooSmall and PacketTooLarge.  A Go [error] result is an
    [option error], [None] being [nil]. *)
Inductive error := errSmallBuffer | errLargePacket.

(** Modelled from the spec: [put16] is declared outside the two source
    files.  §4.2: writes an unsigned integer into a 2-byte range in
    network (big-endian) order, assuming a pre-validated slice length. *)
Definition put16 (b : slice) (v : Z) : M unit :=
  store b 0 (uint8 (Z.shiftr v 8)) ;;;
  store b 1 (uint8 v).

(** Modelled from the spec: [put32] is declared outside the two source
    files.  §4.2: writes an unsigned integer into a 4-byte range in
    network (big-endian) order. *)
Definition put32 (b : slice) (v : Z) : M unit :=
  store b 0 (uint8 (Z.shiftr v 24)) ;;;
  store b 1 (uint8 (Z.shiftr v 16)) ;;;
  store b 2 (uint8 (Z.shiftr v 8)) ;;;
  store b 3 (uint8 v).

(** Modelled from the spec: [get32] is declared outside the two source
    files.  §4.2: reads an unsigned integer from a 4-byte range in
    network (big-endian) order. *)
Definition get32 (b : slice) : M Z :=
  b0 <- load b 0 ;;
  b1 <- load b 1 ;;
  b2 <- load b 2 ;;
  b3 <- load b 3 ;;
  ret (Z.lor (Z.lor (Z.shiftl (byte_val b0) 24) (Z.shiftl (byte_val b1) 16))
             (Z.lor (Z.shiftl (byte_val b2) 8) (byte_val b3))).

(** Modelled from the spec: [ipChecksum] is declared outside the two
    source files.  §4.1: sums successive big-endian 16-bit words (an odd
    trailing byte zero-padded) in a 32-bit accumulator, folds the carry
    above bit 16 into the low 16 bits repeatedly until no carry remains,
    and returns the one's complement. *)
Fixpoint sumWords (b : list byte) (ac : Z) : Z :=
  match b with
  | hi :: lo :: rest =>
      sumWords rest (uint32 (ac + (Z.shiftl (byte_val hi) 8 + byte_val lo)))
  | [hi] => uint32 (ac + Z.shiftl (byte_val hi) 8)
  | [] => ac
  end.

Equations? foldCarry (ac : Z) : Z by wf (Z.to_nat ac) lt :=
  foldCarry ac with Z_lt_dec 0 (Z.shiftr ac 16) := {
    | left _ := foldCarry (Z.shiftr ac 16 + Z.land ac 0xffff);
    | right _ := ac }.
Proof.
  rewrite Z.shiftr_div_pow2 in * by lia.
  change 0xffff with (Z.ones 16). rewrite Z.land_ones by lia.
  change (2 ^ 16) with 65536 in *.
  pose proof (Z.div_mod ac 65536). pose proof (Z.mod_pos_bound ac 65536).
  lia.
Qed.

Definition ipChecksum (b : list byte) : Z :=
  uint16 (Z.lnot (foldCarry (sumWords b 0))).

(** ** net/packet/ip4.go *)

(** [IP4] is a [uint32], [IP4Proto] a [uint8]. *)
Definition IP4 := Z.
Definition IP4Proto := Z.

Definition Unknown : IP4Proto := 0x00.
Definition ICMP : IP4Proto := 0x01.
Definition IGMP : IP4Proto := 0x02.
Definition ICMPv6 : IP4Proto := 0x3a.
Definition TCP : IP4Proto := 0x06.
Definition UDP : IP4Proto := 0x11.
Definition Fragment : IP4Proto := 0xFF.

(** The Go standard library's [net.IP.To4], outside this repository: a
    4-byte value is returned as it is, a 16-byte value whose first ten
    bytes are zero and whose next two are 0xff yields its last four
    bytes, and anything else yields [nil] ([None]). *)
Definition isZeros (p : list byte) : bool :=
  forallb (fun b => byte_val b =? 0) p.

Definition To4 (ip : slice) : M (option slice) :=
  if (size ip =? 4)%nat then ret (Some ip)
  else if (size ip =? 16)%nat then
    z <- sub ip 0 10 ;;
    zs <- contents z ;;
    b10 <- load ip 10 ;;
    b11 <- load ip 11 ;;
    if isZeros zs && (byte_val b10 =? 0xff) && (byte_val b11 =? 0xff)
    then s <- sub ip 12 16 ;; ret (Some s)
    else ret None
  else ret None.

Definition NewIP4 (b : slice) : M IP4 :=
  b4 <- To4 b ;;
  match b4 with
  | None => panic
  | Some b4 => get32 b4
  end.

(** The four octets handed to [netaddr.IPv4] by [IP4.Netaddr]. *)
Definition Netaddr (ip : IP4) : byte * byte * byte * byte :=
  (uint8 (Z.shiftr ip 24), uint8 (Z.shiftr ip 16),
   uint8 (Z.shiftr ip 8), uint8 ip).

Definition IsMulticast (ip : IP4) : bool :=
  Z.land (byte_val (uint8 (Z.shiftr ip 24))) 0xf0 =? 0xe0.

Definition IsLinkLocalUnicast (ip : IP4) : bool :=
  (byte_val (uint8 (Z.shiftr ip 24)) =? 169) &&
  (byte_val (uint8 (Z.shiftr ip 16)) =? 254).

(** [fmt.Sprintf] of the Go standard library, outside this repository,
    on the verb [%d] and a byte: the decimal digits of its value, no
    sign, no leading zero, ["0"] for zero. *)
Definition decimal (b : byte) : string :=
  NilEmpty.string_of_uint (N.to_uint (Byte.to_N b)).

Definition IP4_String (ip : IP4) : string :=
  (decimal (uint8 (Z.shiftr ip 24)) ++ "." ++
   decimal (uint8 (Z.shiftr ip 16)) ++ "." ++
   decimal (uint8 (Z.shiftr ip 8)) ++ "." ++
   decimal (uint8 ip))%string.

Definition IP4Proto_String (p : IP4Proto) : string :=
  if p =? Fragment then "Frag"%string
  else if p =? ICMP then "ICMP"%string
  else if p =? UDP then "UDP"%string
  else if p =? TCP then "TCP"%string
  else "Unknown"%string.

Record IP4Header := mkIP4Header {
  IPProto : IP4Proto;
  IPID : Z;
  SrcIP : IP4;
  DstIP : IP4 }.

Definition ipHeaderLength : Z := 20.

Definition IP4Header_Len (_ : IP4Header) : Z := ipHeaderLength.

(** [ToResponse] has a pointer receiver: the function gives the new
    value of [*h]. *)
Definition IP4Header_ToResponse (h : IP4Header) : IP4Header :=
  {| IPProto := h.(IPProto);
     IPID := uint16 (Z.lnot h.(IPID));
     SrcIP := h.(DstIP);
     DstIP := h.(SrcIP) |}.

(** ** net/packet/icmp4.go *)

Definition ICMP4Type := Z.

Definition ICMP4EchoReply : ICMP4Type := 0x00.
Definition ICMP4EchoRequest : ICMP4Type := 0x08.
Definition ICMP4Unreachable : ICMP4Type := 0x03.
Definition ICMP4TimeExceeded : ICMP4Type := 0x0b.

Definition ICMP4Type_String (t : ICMP4Type) : string :=
  if t =? ICMP4EchoReply then "EchoReply"%string
  else if t =? ICMP4EchoRequest then "EchoRequest"%string
  else if t =? ICMP4Unreachable then "Unreachable"%string
  else if t =? ICMP4TimeExceeded then "TimeExceeded"%string
  else "Unknown"%string.

Definition ICMP4Code := Z.

Definition ICMP4NoCode : ICMP4Code := 0.

(** The embedded [IP4Header] is the field [IP4Hdr]; [Type] is a keyword
    here, so the two ICMP fields are [Type_] and [Code]. *)
Record ICMP4Header := mkICMP4Header {
  IP4Hdr : IP4Header;
  Type_ : ICMP4Type;
  Code : ICMP4Code }.

Definition icmpHeaderLength : Z := 4.
Definition icmpAllHeadersLength : Z := ipHeaderLength + icmpHeaderLength.

Definition ICMP4Header_Len (_ : ICMP4Header) : Z := icmpAllHeadersLength.

(** [h.IPProto = p] on an [ICMP4Header]: the field is promoted from the
    embedded header. *)
Definition set_IPProto (p : IP4Proto) (h : ICMP4Header) : ICMP4Header :=
  {| IP4Hdr := {| IPProto := p;
                  IPID := h.(IP4Hdr).(IPID);
                  SrcIP := h.(IP4Hdr).(SrcIP);
                  DstIP := h.(IP4Hdr).(DstIP) |};
     Type_ := h.(Type_);
     Code := h.(Code) |}.

Definition ICMP4Header_ToResponse (h : ICMP4Header) : ICMP4Header :=
  {| IP4Hdr := IP4Header_ToResponse h.(IP4Hdr);
     Type_ := ICMP4EchoReply;
     Code := ICMP4NoCode |}.

(** ** Header variables and receivers

    A method with a value receiver runs on a copy of the caller's
    header held in a fresh local variable; one with a pointer receiver
    runs on the caller's variable itself.  To tell the two apart,
    header variables live in a stack beside the byte store, a variable
    being its index in the stack, and a method body is written against
    the variable of its receiver. *)
Record state := mkState {
  vars : list ICMP4Header;
  bytes : mem }.

Definition P (A : Type) : Type := state -> option (A * state).

Definition retP {A} (a : A) : P A := fun st => Some (a, st).

Definition bindP {A B} (c : P A) (k : A -> P B) : P B :=
  fun st => match c st with
            | Some (a, st') => k a st'
            | None => None
            end.

(** A computation on the byte store, run in a state. *)
Definition lift {A} (c : M A) : P A :=
  fun st => match c st.(bytes) with
            | Some (a, m') => Some (a, {| vars := st.(vars); bytes := m' |})
            | None => None
            end.

(** Reading a header variable, and assigning to it. *)
Definition get_var (l : nat) : P ICMP4Header :=
  fun st => match st.(vars) !! l with
            | Some v => Some (v, st)
            | None => None
            end.

Definition set_var (l : nat) (v : ICMP4Header) : P unit :=
  fun st => if (l <? length st.(vars))%nat
            then Some (tt, {| vars := <[l := v]> st.(vars); bytes := st.(bytes) |})
            else None.

(** [x.m(...)] for a method with a value receiver: the body runs on a
    new variable that holds a copy of [x], and the variable is gone
    when the call returns. *)
Definition call_value {A} (x : nat) (body : nat -> P A) : P A :=
  fun st => match st.(vars) !! x with
            | Some v =>
                let l := length st.(vars) in
                match body l {| vars := st.(vars) ++ [v]; bytes := st.(bytes) |} with
                | Some (a, st') =>
                    Some (a, {| vars := take l st'.(vars); bytes := st'.(bytes) |})
                | None => None
                end
            | None => None
            end.

(** [x.m(...)] for a method with a pointer receiver: the body runs on
    [x] itself. *)
Definition call_pointer {A} (x : nat) (body : nat -> P A) : P A := body x.

Notation "x <~ c ;; k" := (bindP c (fun x => k))
  (at level 100, c at next level, right associativity).
Notation "c ;;~ k" := (bindP c (fun _ => k))
  (at level 100, right associativity).

(** [ICMP4Header.ToResponse], pointer receiver [h]. *)
Definition ICMP4Header_ToResponse_on (h : nat) : P unit :=
  (v <~ get_var h ;;
   set_var h {| IP4Hdr := v.(IP4Hdr); Type_ := ICMP4EchoReply; Code := v.(Code) |}) ;;~
  (v <~ get_var h ;;
   set_var h {| IP4Hdr := v.(IP4Hdr); Type_ := v.(Type_); Code := ICMP4NoCode |}) ;;~
  (v <~ get_var h ;;
   set_var h {| IP4Hdr := IP4Header_ToResponse v.(IP4Hdr);
                Type_ := v.(Type_); Code := v.(Code) |}).

Section Marshal.

(** [maxPacketLength] is a constant declared outside the two source
    files; the spec leaves its value to the implementation. *)
Variable maxPacketLength : Z.

Definition IP4Header_Marshal (h : IP4Header) (buf : slice) : M (option error) :=
  if len buf <? ipHeaderLength then ret (Some errSmallBuffer)
  else if len buf >? maxPacketLength then ret (Some errLargePacket)
  else
    store buf 0 (uint8 (Z.lor 0x40 (Z.shiftr ipHeaderLength 2))) ;;;
    store buf 1 (uint8 0x00) ;;;
    (s <- sub buf 2 4 ;; put16 s (uint16 (len buf))) ;;;
    (s <- sub buf 4 6 ;; put16 s h.(IPID)) ;;;
    (s <- sub buf 6 8 ;; put16 s 0) ;;;
    store buf 8 (uint8 64) ;;;
    store buf 9 (uint8 h.(IPProto)) ;;;
    (s <- sub buf 10 12 ;; put16 s 0) ;;;
    (s <- sub buf 12 16 ;; put32 s h.(SrcIP)) ;;;
    (s <- sub buf 16 20 ;; put32 s h.(DstIP)) ;;;
    (s <- sub buf 10 12 ;;
     hd <- sub buf 0 20 ;;
     bs <- contents hd ;;
     put16 s (ipChecksum bs)) ;;;
    ret None.

Definition IP4Header_MarshalPseudo (h : IP4Header) (buf : slice) : M (option error) :=
  if len buf <? ipHeaderLength then ret (Some errSmallBuffer)
  else if len buf >? maxPacketLength then ret (Some errLargePacket)
  else
    let length := len buf - ipHeaderLength in
    (s <- sub buf 8 12 ;; put32 s h.(SrcIP)) ;;;
    (s <- sub buf 12 16 ;; put32 s h.(DstIP)) ;;;
    store buf 16 (uint8 0x0) ;;;
    store buf 17 (uint8 h.(IPProto)) ;;;
    (s <- sub buf 18 20 ;; put16 s (uint16 length)) ;;;
    ret None.

(** [ICMP4Header.Marshal] has a value receiver: its body runs on a
    local copy [h] of the caller's header.  The body is given with the
    final value of that local next to the returned error, so that what
    happens to the copy can be told from what happens to the caller. *)
Definition ICMP4Header_Marshal_body (h : ICMP4Header) (buf : slice)
  : M (ICMP4Header * option error) :=
  if len buf <? icmpAllHeadersLength then ret (h, Some errSmallBuffer)
  else if len buf >? maxPacketLength then ret (h, Some errLargePacket)
  else
    let h := set_IPProto ICMP h in
    store buf 20 (uint8 h.(Type_)) ;;;
    store buf 21 (uint8 h.(Code)) ;;;
    _ <- IP4Header_Marshal h.(IP4Hdr) buf ;;
    (s <- sub buf 22 24 ;;
     bs <- contents buf ;;
     put16 s (ipChecksum bs)) ;;;
    ret (h, None).

(** The method as a caller sees it: the local copy is dropped. *)
Definition ICMP4Header_Marshal (h : ICMP4Header) (buf : slice) : M (option error) :=
  r <- ICMP4Header_Marshal_body h buf ;; ret (snd r).

(** [ICMP4Header.Marshal], value receiver [h]: the body as written,
    against the variable [h] of its receiver. *)
Definition ICMP4Header_Marshal_on (h : nat) (buf : slice) : P (option error) :=
  if len buf <? icmpAllHeadersLength then retP (Some errSmallBuffer)
  else if len buf >? maxPacketLength then retP (Some errLargePacket)
  else
    (v <~ get_var h ;; set_var h (set_IPProto ICMP v)) ;;~
    (v <~ get_var h ;; lift (store buf 20 (uint8 v.(Type_)))) ;;~
    (v <~ get_var h ;; lift (store buf 21 (uint8 v.(Code)))) ;;~
    (v <~ get_var h ;; lift (IP4Header_Marshal v.(IP4Hdr) buf)) ;;~
    lift (s <- sub buf 22 24 ;;
          bs <- contents buf ;;
          put16 s (ipChecksum bs)) ;;~
    retP None.

(** What a length-checked marshal operation does on a buffer [m] when
    [required] bytes are needed: it returns (no panic), the small-buffer
    error exactly for a short buffer, the large-packet error exactly for
    one above the maximum, and with either error the buffer as it was. *)
Definition length_checked (required : Z) (m : mem)
    (r : option (option error * mem)) : Prop :=
  exists e m',
    r = Some (e, m') /\
    (e = Some errSmallBuffer <-> Z.of_nat (length m) < required) /\
    (e = Some errLargePacket <-> Z.of_nat (length m) > maxPacketLength) /\
    (e <> None -> m' = m).

End Marshal.

(** * Vocabulary of the statements *)

(** Big-endian reading of a byte list, most significant byte first. *)
Definition be_decode (bs : list byte) : Z :=
  fold_left (fun acc b => acc * 256 + byte_val b) bs 0.

(** The big-endian byte sequences that [put16] and [put32] leave. *)
Definition be16 (v : Z) : list byte :=
  [uint8 (Z.shiftr v 8); uint8 v].

Definition be32 (v : Z) : list byte :=
  [uint8 (Z.shiftr v 24); uint8 (Z.shiftr v 16); uint8 (Z.shiftr v 8); uint8 v].

(** The sum of the big-endian 16-bit words of a byte sequence, without
    any wrap-around. *)
Fixpoint wordSum (b : list byte) : Z :=
  match b with
  | hi :: lo :: rest => (byte_val hi * 256 + byte_val lo) + wordSum rest
  | [hi] => byte_val hi * 256
  | [] => 0
  end.

(** The representative of a sum modulo 65535 that lies in [1, 65535],
    and 0 for 0: what folding the carries arrives at. *)
Definition folded (ac : Z) : Z :=
  if ac =? 0 then 0 else (ac - 1) mod 65535 + 1.

(** The twenty header bytes [IP4Header.Marshal] leaves, the checksum
    field holding [ck]. *)
Definition ip4_wire (h : IP4Header) (n : Z) (ck : Z) : list byte :=
  [x45; x00] ++ be16 n ++ be16 h.(IPID) ++ [x00; x00; x40; uint8 h.(IPProto)]
  ++ be16 ck ++ be32 h.(SrcIP) ++ be32 h.(DstIP).

(** The store on which [ICMP4Header.Marshal] sums its checksum: the IP
    header is final, type and code are written, and bytes 22 and 23 are
    still the caller's. *)
Definition icmp_summed (h : ICMP4Header) (m : mem) : mem :=
  let ip := IP4Hdr (set_IPProto ICMP h) in
  let n := uint16 (Z.of_nat (length m)) in
  ip4_wire ip n (ipChecksum (ip4_wire ip n 0))
  ++ [uint8 h.(Type_); uint8 h.(Code)] ++ drop 22 m.

(** The first twelve bytes of an IPv4-mapped 16-byte address. *)
Definition v4InV6Prefix : list byte :=
  [x00; x00; x00; x00; x00; x00; x00; x00; x00; x00; xff; xff].

(** The values [To4] accepts: four bytes, or sixteen with the
    IPv4-mapped prefix. *)
Definition isIPv4 (m : mem) : Prop :=
  length m = 4%nat \/ (length m = 16%nat /\ take 12 m = v4InV6Prefix).

(** No full stop among the characters of a string. *)
Fixpoint dotless (s : string) : bool :=
  match s with
  | EmptyString => true
  | String c r => negb (Ascii.eqb c "."%char) && dotless r
  end.

(** The field widths of an [IP4Header]: [uint8], [uint16], [uint32],
    [uint32]. *)
Definition wf_IP4Header (h : IP4Header) : Prop :=
  0 <= h.(IPProto) < 256 /\ 0 <= h.(IPID) < 65536 /\
  0 <= h.(SrcIP) < 4294967296 /\ 0 <= h.(DstIP) < 4294967296.

(** The first 22 bytes [ICMP4Header.Marshal] leaves: the final IP
    header, then type and code. *)
Definition icmp_head (h : ICMP4Header) (m : mem) : list byte :=
  let ip := IP4Hdr (set_IPProto ICMP h) in
  let n := uint16 (Z.of_nat (length m)) in
  ip4_wire ip n (ipChecksum (ip4_wire ip n 0)) ++ [uint8 h.(Type_); uint8 h.(Code)].

(** ** Concrete inputs *)

(** The maximum of the original package, the spec's example bound. *)
Definition maxUint16 : Z := 65535.

(** The second scenario of §8: an echo request whose embedded header
    the caller left at its zero value. *)
Definition echo_request : ICMP4Header :=
  {| IP4Hdr := {| IPProto := Unknown; IPID := 0; SrcIP := 0; DstIP := 0 |};
     Type_ := ICMP4EchoRequest;
     Code := ICMP4NoCode |}.

(** The first scenario of §8: TCP from 10.0.0.1 to 10.0.0.2. *)
Definition tcp_header : IP4Header :=
  {| IPProto := TCP; IPID := 0x1234; SrcIP := 0x0a000001; DstIP := 0x0a000002 |}.

Definition zeros (n : nat) : mem := replicate n x00.

(** A 24-byte buffer that is zero except for its last byte, which lies
    in the ICMP checksum field. *)
Definition stale_buffer : mem := replicate 23 x00 ++ [x01].

(** A 20-byte buffer of 0xff bytes. *)
Definition dirty_buffer : mem := replicate 20 xff.

(** The IPv6 loopback address [::1] as a 16-byte [net.IP]. *)
Definition ipv6_loopback : mem := replicate 15 x00 ++ [x01].

(** An echo reply with a zero embedded header. *)
Definition echo_reply : ICMP4Header :=
  {| IP4Hdr := {| IPProto := Unknown; IPID := 0; SrcIP := 0; DstIP := 0 |};
     Type_ := ICMP4EchoReply;
     Code := ICMP4NoCode |}.

(** * Properties *)

(** ** Bytes and big-endian encodings *)

Lemma byte_val_range (b : byte) : 0 <= byte_val b < 256.
Proof.
  unfold byte_val. pose proof (Byte.to_N_bounded b). lia.
Qed.

Lemma byte_val_uint8 (z : Z) : byte_val (uint8 z) = z mod 256.
Proof.
  unfold byte_val, uint8.
  pose proof (Z.mod_pos_bound z 256 ltac:(lia)) as Hr.
  destruct (Byte.of_N (Z.to_N (z mod 256))) as [b|] eqn:E.
  - apply Byte.to_of_N in E. simpl. rewrite E. lia.
  - apply Byte.of_N_None_iff in E. lia.
Qed.

Lemma uint8_byte_val (b : byte) : uint8 (byte_val b) = b.
Proof.
  unfold uint8, byte_val.
  pose proof (Byte.to_N_bounded b).
  rewrite Z.mod_small by lia.
  rewrite N2Z.id, Byte.of_to_N. reflexivity.
Qed.

Lemma be_decode_be16 (v : Z) : 0 <= v < 65536 -> be_decode (be16 v) = v.
Proof.
  intros Hv. unfold be_decode, be16. simpl.
  rewrite !byte_val_uint8, Z.shiftr_div_pow2 by lia.
  change (2 ^ 8) with 256.
  rewrite (Z.mod_small (v / 256)) by (split; [apply Z.div_pos | apply Z.div_lt_upper_bound]; lia).
  pose proof (Z.div_mod v 256). lia.
Qed.

Lemma be_decode_be32 (v : Z) : 0 <= v < 4294967296 -> be_decode (be32 v) = v.
Proof.
  intros Hv. unfold be_decode, be32. simpl.
  rewrite !byte_val_uint8, !Z.shiftr_div_pow2 by lia.
  change (2 ^ 8) with 256. change (2 ^ 16) with 65536. change (2 ^ 24) with 16777216.
  pose proof (Z.div_mod v 256). pose proof (Z.mod_pos_bound v 256).
  pose proof (Z.div_mod (v / 256) 256). pose proof (Z.mod_pos_bound (v / 256) 256).
  pose proof (Z.div_mod (v / 256 / 256) 256). pose proof (Z.mod_pos_bound (v / 256 / 256) 256).
  assert (v / 65536 = v / 256 / 256) as -> by (rewrite Z.div_div by lia; reflexivity).
  assert (v / 16777216 = v / 256 / 256 / 256) as -> by (rewrite !Z.div_div by lia; reflexivity).
  assert (0 <= v / 256 / 256 / 256 < 256).
  { split; [repeat apply Z.div_pos; lia|].
    repeat apply Z.div_lt_upper_bound; lia. }
  rewrite (Z.mod_small (v / 256 / 256 / 256)) by lia.
  lia.
Qed.

Lemma uint8_congr (a b : Z) : a mod 256 = b mod 256 -> uint8 a = uint8 b.
Proof. intros H. unfold uint8. rewrite H. reflexivity. Qed.

(** [put16] takes a [uint16]: only the low sixteen bits reach the wire. *)
Lemma be16_uint16 (v : Z) : be16 (uint16 v) = be16 v.
Proof.
  unfold be16, uint16. f_equal; [|f_equal].
  - apply uint8_congr. rewrite !Z.shiftr_div_pow2 by lia. change (2 ^ 8) with 256.
    rewrite (Z.mod_eq v 65536) by lia.
    replace (v - 65536 * (v / 65536)) with (v + (- (256 * (v / 65536))) * 256) by lia.
    rewrite Z.div_add by lia.
    replace (v / 256 + - (256 * (v / 65536))) with (v / 256 + (- (v / 65536)) * 256) by lia.
    apply Z.mod_add. lia.
  - apply uint8_congr.
    rewrite (Z.mod_eq v 65536) by lia.
    replace (v - 65536 * (v / 65536)) with (v + (- (256 * (v / 65536))) * 256) by lia.
    apply Z.mod_add. lia.
Qed.

(** ** The checksum *)

Lemma wordSum_nonneg (b : list byte) : 0 <= wordSum b.
Proof.
  enough (0 <= wordSum b /\ forall x, 0 <= wordSum (x :: b)) by tauto.
  induction b as [|y b [IH1 IH2]]; split; intros; simpl.
  - lia.
  - pose proof (byte_val_range x). lia.
  - apply IH2.
  - pose proof (byte_val_range x). pose proof (byte_val_range y). lia.
Qed.

(** While the 32-bit accumulator does not overflow, [sumWords] adds up
    the words. *)
Lemma sumWords_nowrap (b : list byte) (ac : Z) :
  0 <= ac -> ac + wordSum b < 4294967296 ->
  sumWords b ac = ac + wordSum b.
Proof.
  enough ((forall ac, 0 <= ac -> ac + wordSum b < 4294967296 ->
                      sumWords b ac = ac + wordSum b) /\
          (forall x ac, 0 <= ac -> ac + wordSum (x :: b) < 4294967296 ->
                        sumWords (x :: b) ac = ac + wordSum (x :: b)))
    as [H _] by (apply H).
  clear ac.
  induction b as [|y b [IH1 IH2]]; split.
  - intros ac _ _. simpl. lia.
  - intros x ac Hac Hlt. simpl in *. rewrite Z.shiftl_mul_pow2 by lia.
    change (2 ^ 8) with 256. unfold uint32.
    pose proof (byte_val_range x). rewrite Z.mod_small by lia. reflexivity.
  - apply IH2.
  - intros x ac Hac Hlt.
    change (sumWords (x :: y :: b) ac) with
      (sumWords b (uint32 (ac + (Z.shiftl (byte_val x) 8 + byte_val y)))).
    change (wordSum (x :: y :: b)) with
      (byte_val x * 256 + byte_val y + wordSum b) in *.
    rewrite Z.shiftl_mul_pow2 by lia. change (2 ^ 8) with 256. unfold uint32.
    pose proof (byte_val_range x). pose proof (byte_val_range y).
    pose proof (wordSum_nonneg b).
    rewrite Z.mod_small by lia.
    rewrite IH1 by lia. lia.
Qed.

(** The carry-folding loop ends on [folded]. *)
Lemma foldCarry_folded (ac : Z) : 0 <= ac -> foldCarry ac = folded ac.
Proof.
  funelim (foldCarry ac); intros Hac.
  - (* a carry remains: one more round *)
    clear Heq.
    match goal with IH : _ -> foldCarry _ = folded _ |- _ => rename IH into IHfold end.
    rewrite Z.shiftr_div_pow2 in * by lia.
    change 0xffff with (Z.ones 16) in *. rewrite Z.land_ones in * by lia.
    change (2 ^ 16) with 65536 in *.
    pose proof (Z.div_mod ac 65536 ltac:(lia)) as Hdm.
    pose proof (Z.mod_pos_bound ac 65536 ltac:(lia)) as Hr.
    rewrite IHfold by lia.
    unfold folded.
    destruct (Z.eqb_spec (ac / 65536 + ac mod 65536) 0); [lia|].
    destruct (Z.eqb_spec ac 0); [lia|].
    f_equal.
    replace (ac - 1) with (ac / 65536 + ac mod 65536 - 1 + (ac / 65536) * 65535) by lia.
    rewrite Z.mod_add by lia. reflexivity.
  - (* no carry *)
    clear Heq.
    rewrite Z.shiftr_div_pow2 in * by lia. change (2 ^ 16) with 65536 in *.
    assert (ac < 65536).
    { destruct (Z_lt_ge_dec ac 65536) as [?|Hge]; [assumption|].
      exfalso. apply n. apply Z.div_str_pos. lia. }
    unfold folded. destruct (Z.eqb_spec ac 0); [lia|].
    rewrite Z.mod_small by lia. lia.
Qed.

Lemma folded_range (ac : Z) : 0 <= folded ac <= 65535.
Proof.
  unfold folded. destruct (Z.eqb_spec ac 0); [lia|].
  pose proof (Z.mod_pos_bound (ac - 1) 65535 ltac:(lia)). lia.
Qed.

Lemma ipChecksum_folded (b : list byte) :
  wordSum b < 4294967296 ->
  ipChecksum b = 65535 - folded (wordSum b).
Proof.
  intros Hlt. unfold ipChecksum.
  pose proof (wordSum_nonneg b).
  rewrite sumWords_nowrap by lia. rewrite Z.add_0_l.
  rewrite foldCarry_folded by lia.
  pose proof (folded_range (wordSum b)).
  unfold uint16, Z.lnot.
  replace (Z.pred (- folded (wordSum b)))
    with (65535 - folded (wordSum b) + (-1) * 65536) by lia.
  rewrite Z.mod_add by lia. apply Z.mod_small. lia.
Qed.

Lemma ipChecksum_range (b : list byte) : 0 <= ipChecksum b < 65536.
Proof.
  unfold ipChecksum, uint16. apply Z.mod_pos_bound. lia.
Qed.

(** ** Running the marshal bodies *)

(** A buffer of at least twenty bytes, spelled out. *)
Lemma buffer_20 (m : mem) :
  (20 <= length m)%nat ->
  exists b0 b1 b2 b3 b4 b5 b6 b7 b8 b9 b10 b11 b12 b13 b14 b15 b16 b17 b18 b19 rest,
    m = b0 :: b1 :: b2 :: b3 :: b4 :: b5 :: b6 :: b7 :: b8 :: b9 ::
        b10 :: b11 :: b12 :: b13 :: b14 :: b15 :: b16 :: b17 :: b18 :: b19 :: rest.
Proof.
  intros H.
  do 20 (destruct m as [|? m]; [simpl in H; lia|]).
  repeat eexists.
Qed.

Lemma wordSum_bound (b : list byte) : wordSum b <= 65535 * Z.of_nat (length b).
Proof.
  enough (wordSum b <= 65535 * Z.of_nat (length b) /\
          forall x, wordSum (x :: b) <= 65535 * Z.of_nat (length (x :: b)))
    by tauto.
  induction b as [|y b [IH1 IH2]]; split; intros.
  - simpl. lia.
  - pose proof (byte_val_range x). simpl. lia.
  - apply IH2.
  - pose proof (byte_val_range x). pose proof (byte_val_range y).
    change (wordSum (x :: y :: b)) with (byte_val x * 256 + byte_val y + wordSum b).
    rewrite !length_cons, !Nat2Z.inj_succ. lia.
Qed.

Lemma wordSum_be16 (v : Z) : 0 <= v < 65536 -> wordSum (be16 v) = v.
Proof.
  intros Hv. rewrite <- (be_decode_be16 v Hv) at 2.
  unfold be_decode, be16. simpl. lia.
Qed.

Lemma wordSum_ip4_wire (h : IP4Header) (n ck : Z) :
  wordSum (ip4_wire h n ck) = wordSum (ip4_wire h n 0) + wordSum (be16 ck).
Proof.
  unfold ip4_wire, be16, be32. cbn [app wordSum].
  change (byte_val (uint8 (Z.shiftr 0 8))) with 0.
  change (byte_val (uint8 0)) with 0.
  lia.
Qed.

Lemma wordSum_ip4_wire_pos (h : IP4Header) (n ck : Z) :
  17664 <= wordSum (ip4_wire h n ck) < 4294967296.
Proof.
  split.
  - unfold ip4_wire. cbn [app wordSum be16].
    change (byte_val x45) with 69. change (byte_val x00) with 0.
    match goal with |- _ <= _ + ?r => assert (0 <= r) end; [|lia].
    match goal with |- 0 <= _ + ?r => assert (0 <= r) end.
    { match goal with |- 0 <= ?w => change w with
        (wordSum (be16 h.(IPID) ++ [x00; x00; x40; uint8 h.(IPProto)]
                  ++ be16 ck ++ be32 h.(SrcIP) ++ be32 h.(DstIP))) end.
      apply wordSum_nonneg. }
    pose proof (byte_val_range (uint8 (Z.shiftr n 8))).
    pose proof (byte_val_range (uint8 n)). lia.
  - pose proof (wordSum_bound (ip4_wire h n ck)) as Hb.
    change (length (ip4_wire h n ck)) with 20%nat in Hb. lia.
Qed.

(** Summing a marshalled header with its checksum in place gives 0. *)
Lemma ipChecksum_ip4_wire (h : IP4Header) (n : Z) :
  ipChecksum (ip4_wire h n (ipChecksum (ip4_wire h n 0))) = 0.
Proof.
  pose proof (wordSum_ip4_wire_pos h n 0) as H0.
  pose proof (wordSum_ip4_wire_pos h n (ipChecksum (ip4_wire h n 0))) as H1.
  rewrite (ipChecksum_folded (ip4_wire h n (ipChecksum _))) by lia.
  clear H1.
  rewrite (wordSum_ip4_wire h n (ipChecksum _)).
  rewrite wordSum_be16 by apply ipChecksum_range.
  rewrite (ipChecksum_folded (ip4_wire h n 0)) by lia.
  set (S0 := wordSum (ip4_wire h n 0)) in *.
  unfold folded in *.
  destruct (Z.eqb_spec S0 0); [lia|].
  pose proof (Z.div_mod (S0 - 1) 65535 ltac:(lia)) as Hdm.
  pose proof (Z.mod_pos_bound (S0 - 1) 65535 ltac:(lia)) as Hr.
  destruct (Z.eqb_spec (S0 + (65535 - ((S0 - 1) mod 65535 + 1))) 0); [lia|].
  replace (S0 + (65535 - ((S0 - 1) mod 65535 + 1)) - 1)
    with (65534 + ((S0 - 1) / 65535) * 65535) by lia.
  rewrite Z.mod_add by lia. reflexivity.
Qed.

Section MarshalRuns.

Variable maxPacketLength : Z.

Lemma IP4Header_Marshal_run (h : IP4Header) (m : mem) :
  20 <= Z.of_nat (length m) <= maxPacketLength ->
  IP4Header_Marshal maxPacketLength h (whole m) m =
    Some (None,
          ip4_wire h (uint16 (Z.of_nat (length m)))
                   (ipChecksum (ip4_wire h (uint16 (Z.of_nat (length m))) 0))
          ++ drop 20 m).
Proof.
  intros [Hlo Hhi]. unfold IP4Header_Marshal.
  change (len (whole m)) with (Z.of_nat (length m)).
  destruct (Z.ltb_spec (Z.of_nat (length m)) ipHeaderLength) as [Hc|_];
    [unfold ipHeaderLength in Hc; lia|].
  destruct (Z.gtb_spec (Z.of_nat (length m)) maxPacketLength) as [Hc|_]; [lia|].
  generalize (uint16 (Z.of_nat (length m))) as n. intros n.
  destruct (buffer_20 m ltac:(lia)) as
    (b0&b1&b2&b3&b4&b5&b6&b7&b8&b9&b10&b11&b12&b13&b14&b15&b16&b17&b18&b19&rest&->).
  reflexivity.
Qed.

Lemma IP4Header_MarshalPseudo_run (h : IP4Header) (m : mem) :
  20 <= Z.of_nat (length m) <= maxPacketLength ->
  IP4Header_MarshalPseudo maxPacketLength h (whole m) m =
    Some (None,
          take 8 m ++ be32 h.(SrcIP) ++ be32 h.(DstIP)
          ++ [x00; uint8 h.(IPProto)]
          ++ be16 (uint16 (Z.of_nat (length m) - 20)) ++ drop 20 m).
Proof.
  intros [Hlo Hhi]. unfold IP4Header_MarshalPseudo.
  change (len (whole m)) with (Z.of_nat (length m)).
  destruct (Z.ltb_spec (Z.of_nat (length m)) ipHeaderLength) as [Hc|_];
    [unfold ipHeaderLength in Hc; lia|].
  destruct (Z.gtb_spec (Z.of_nat (length m)) maxPacketLength) as [Hc|_]; [lia|].
  change (Z.of_nat (length m) - ipHeaderLength) with (Z.of_nat (length m) - 20).
  generalize (uint16 (Z.of_nat (length m) - 20)) as n. intros n.
  destruct (buffer_20 m ltac:(lia)) as
    (b0&b1&b2&b3&b4&b5&b6&b7&b8&b9&b10&b11&b12&b13&b14&b15&b16&b17&b18&b19&rest&->).
  reflexivity.
Qed.

Lemma view_whole (m m' : mem) : length m' = length m -> view (whole m) m' = m'.
Proof.
  intros H. unfold view, whole. simpl. rewrite <- H. apply firstn_all.
Qed.

Lemma sub_whole (m m' : mem) (lo hi : nat) :
  (lo <= hi <= length m)%nat ->
  sub (whole m) lo hi m' = Some (Slice lo (hi - lo), m').
Proof.
  intros [H1 H2]. unfold sub, whole. simpl.
  destruct (Nat.leb_spec lo hi); [|lia].
  destruct (Nat.leb_spec hi (length m)); [|lia].
  reflexivity.
Qed.

Lemma store_whole (m m' : mem) (i : nat) (b : byte) :
  (i < length m)%nat ->
  store (whole m) i b m' = Some (tt, <[i := b]> m').
Proof.
  intros H. unfold store, whole. simpl.
  destruct (Nat.ltb_spec i (length m)); [reflexivity | lia].
Qed.

Lemma length_icmp_summed (h : ICMP4Header) (m : mem) :
  (22 <= length m)%nat -> length (icmp_summed h m) = length m.
Proof.
  intros H. unfold icmp_summed. cbv zeta.
  rewrite !length_app, length_drop. simpl. lia.
Qed.

Lemma ICMP4Header_Marshal_body_run (h : ICMP4Header) (m : mem) :
  24 <= Z.of_nat (length m) <= maxPacketLength ->
  ICMP4Header_Marshal_body maxPacketLength h (whole m) m =
    Some ((set_IPProto ICMP h, None),
          take 22 (icmp_summed h m)
          ++ be16 (ipChecksum (icmp_summed h m)) ++ drop 24 m).
Proof.
  intros [Hlo Hhi]. unfold ICMP4Header_Marshal_body.
  change (len (whole m)) with (Z.of_nat (length m)).
  destruct (Z.ltb_spec (Z.of_nat (length m)) icmpAllHeadersLength) as [Hc|_];
    [change icmpAllHeadersLength with 24 in Hc; lia|].
  destruct (Z.gtb_spec (Z.of_nat (length m)) maxPacketLength) as [Hc|_]; [lia|].
  cbv zeta.
  set (m1 := <[21%nat := uint8 (Code (set_IPProto ICMP h))]>
               (<[20%nat := uint8 (Type_ (set_IPProto ICMP h))]> m)).
  assert (Hlen1 : length m1 = length m)
    by (unfold m1; rewrite !length_insert; reflexivity).
  unfold bind at 1. rewrite store_whole by lia.
  unfold bind at 1. rewrite store_whole by lia. fold m1.
  unfold bind at 1.
  replace (whole m) with (whole m1) by (unfold whole; rewrite Hlen1; reflexivity).
  rewrite IP4Header_Marshal_run by lia.
  assert (Hsum : ip4_wire (IP4Hdr (set_IPProto ICMP h)) (uint16 (Z.of_nat (length m1)))
                   (ipChecksum (ip4_wire (IP4Hdr (set_IPProto ICMP h))
                                         (uint16 (Z.of_nat (length m1))) 0))
                 ++ drop 20 m1 = icmp_summed h m).
  { unfold icmp_summed. cbv zeta. rewrite Hlen1. f_equal.
    unfold m1. clear - Hlo.
    destruct (buffer_20 m ltac:(lia)) as
      (b0&b1&b2&b3&b4&b5&b6&b7&b8&b9&b10&b11&b12&b13&b14&b15&b16&b17&b18&b19&rest&->).
    destruct rest as [|b20 [|b21 rest]]; simpl in Hlo; try lia.
    reflexivity. }
  rewrite Hsum.
  pose proof (length_icmp_summed h m ltac:(lia)) as HlenS.
  unfold bind at 1. unfold bind at 1.
  rewrite sub_whole by lia.
  unfold bind at 1. unfold contents.
  rewrite view_whole by lia.
  generalize (ipChecksum (icmp_summed h m)) as ck. intros ck.
  unfold icmp_summed. cbv zeta.
  generalize (ipChecksum (ip4_wire (IP4Hdr (set_IPProto ICMP h))
                                   (uint16 (Z.of_nat (length m))) 0)) as ck0.
  generalize (uint16 (Z.of_nat (length m))) as n. intros n ck0.
  clear - Hlo.
  destruct (buffer_20 m ltac:(lia)) as
    (b0&b1&b2&b3&b4&b5&b6&b7&b8&b9&b10&b11&b12&b13&b14&b15&b16&b17&b18&b19&rest&->).
  destruct rest as [|b20 [|b21 [|b22 [|b23 rest]]]]; simpl in Hlo; try lia.
  reflexivity.
Qed.

(** The two length checks come first and return without touching the
    store. *)
Lemma IP4Header_Marshal_small (h : IP4Header) (m : mem) :
  Z.of_nat (length m) < 20 ->
  IP4Header_Marshal maxPacketLength h (whole m) m = Some (Some errSmallBuffer, m).
Proof.
  intros H. unfold IP4Header_Marshal.
  change (len (whole m)) with (Z.of_nat (length m)).
  destruct (Z.ltb_spec (Z.of_nat (length m)) ipHeaderLength) as [_|Hc];
    [reflexivity | unfold ipHeaderLength in Hc; lia].
Qed.

Lemma IP4Header_Marshal_large (h : IP4Header) (m : mem) :
  20 <= Z.of_nat (length m) -> Z.of_nat (length m) > maxPacketLength ->
  IP4Header_Marshal maxPacketLength h (whole m) m = Some (Some errLargePacket, m).
Proof.
  intros H1 H2. unfold IP4Header_Marshal.
  change (len (whole m)) with (Z.of_nat (length m)).
  destruct (Z.ltb_spec (Z.of_nat (length m)) ipHeaderLength) as [Hc|_];
    [unfold ipHeaderLength in Hc; lia|].
  destruct (Z.gtb_spec (Z.of_nat (length m)) maxPacketLength) as [_|Hc];
    [reflexivity | lia].
Qed.

Lemma IP4Header_MarshalPseudo_small (h : IP4Header) (m : mem) :
  Z.of_nat (length m) < 20 ->
  IP4Header_MarshalPseudo maxPacketLength h (whole m) m = Some (Some errSmallBuffer, m).
Proof.
  intros H. unfold IP4Header_MarshalPseudo.
  change (len (whole m)) with (Z.of_nat (length m)).
  destruct (Z.ltb_spec (Z.of_nat (length m)) ipHeaderLength) as [_|Hc];
    [reflexivity | unfold ipHeaderLength in Hc; lia].
Qed.

Lemma IP4Header_MarshalPseudo_large (h : IP4Header) (m : mem) :
  20 <= Z.of_nat (length m) -> Z.of_nat (length m) > maxPacketLength ->
  IP4Header_MarshalPseudo maxPacketLength h (whole m) m = Some (Some errLargePacket, m).
Proof.
  intros H1 H2. unfold IP4Header_MarshalPseudo.
  change (len (whole m)) with (Z.of_nat (length m)).
  destruct (Z.ltb_spec (Z.of_nat (length m)) ipHeaderLength) as [Hc|_];
    [unfold ipHeaderLength in Hc; lia|].
  destruct (Z.gtb_spec (Z.of_nat (length m)) maxPacketLength) as [_|Hc];
    [reflexivity | lia].
Qed.

Lemma ICMP4Header_Marshal_body_small (h : ICMP4Header) (m : mem) :
  Z.of_nat (length m) < 24 ->
  ICMP4Header_Marshal_body maxPacketLength h (whole m) m
  = Some ((h, Some errSmallBuffer), m).
Proof.
  intros H. unfold ICMP4Header_Marshal_body.
  change (len (whole m)) with (Z.of_nat (length m)).
  destruct (Z.ltb_spec (Z.of_nat (length m)) icmpAllHeadersLength) as [_|Hc];
    [reflexivity | change icmpAllHeadersLength with 24 in Hc; lia].
Qed.

Lemma ICMP4Header_Marshal_body_large (h : ICMP4Header) (m : mem) :
  24 <= Z.of_nat (length m) -> Z.of_nat (length m) > maxPacketLength ->
  ICMP4Header_Marshal_body maxPacketLength h (whole m) m
  = Some ((h, Some errLargePacket), m).
Proof.
  intros H1 H2. unfold ICMP4Header_Marshal_body.
  change (len (whole m)) with (Z.of_nat (length m)).
  destruct (Z.ltb_spec (Z.of_nat (length m)) icmpAllHeadersLength) as [Hc|_];
    [change icmpAllHeadersLength with 24 in Hc; lia|].
  destruct (Z.gtb_spec (Z.of_nat (length m)) maxPacketLength) as [_|Hc];
    [reflexivity | lia].
Qed.

Lemma ICMP4Header_Marshal_of_body (h : ICMP4Header) (m : mem) r m' :
  ICMP4Header_Marshal_body maxPacketLength h (whole m) m = Some (r, m') ->
  ICMP4Header_Marshal maxPacketLength h (whole m) m = Some (snd r, m').
Proof.
  intros H. unfold ICMP4Header_Marshal, bind. rewrite H. reflexivity.
Qed.

Lemma ICMP4Header_Marshal_run (h : ICMP4Header) (m : mem) :
  24 <= Z.of_nat (length m) <= maxPacketLength ->
  ICMP4Header_Marshal maxPacketLength h (whole m) m =
    Some (None,
          take 22 (icmp_summed h m)
          ++ be16 (ipChecksum (icmp_summed h m)) ++ drop 24 m).
Proof.
  intros H.
  apply (ICMP4Header_Marshal_of_body h m _ _ (ICMP4Header_Marshal_body_run h m H)).
Qed.

(** ** The claims about marshalling *)

(** C1. For a buffer of 24 to [maxPacketLength] bytes,
    [ICMP4Header.Marshal] succeeds and byte 9 of the buffer, the IP
    protocol number, is 1 (ICMP) whatever [IPProto] the caller had set
    in the embedded header. *)
Theorem ICMP4Header_Marshal_forces_ICMP (h : ICMP4Header) (m : mem) :
  24 <= Z.of_nat (length m) <= maxPacketLength ->
  exists m',
    ICMP4Header_Marshal maxPacketLength h (whole m) m = Some (None, m') /\
    m' !! 9%nat = Some x01.
Proof.
  intros H. eexists. split; [apply ICMP4Header_Marshal_run; exact H|].
  reflexivity.
Qed.

(** C2. [IP4Header.Marshal], [IP4Header.MarshalPseudo] and
    [ICMP4Header.Marshal] return BufferTooSmall exactly when the buffer
    is shorter than 20, 20 and 24 bytes, PacketTooLarge exactly when it
    is longer than the maximum, and leave the buffer unmodified in both
    cases.  The maximum is assumed to admit a full header. *)
Theorem Marshal_length_errors (h : IP4Header) (ih : ICMP4Header) (m : mem) :
  icmpAllHeadersLength <= maxPacketLength ->
  length_checked maxPacketLength 20 m
    (IP4Header_Marshal maxPacketLength h (whole m) m) /\
  length_checked maxPacketLength 20 m
    (IP4Header_MarshalPseudo maxPacketLength h (whole m) m) /\
  length_checked maxPacketLength 24 m
    (ICMP4Header_Marshal maxPacketLength ih (whole m) m).
Proof.
  change icmpAllHeadersLength with 24. intros Hmax.
  unfold length_checked.
  split; [|split].
  - destruct (Z_lt_ge_dec (Z.of_nat (length m)) 20) as [Hs|Hs];
      [|destruct (Z_gt_le_dec (Z.of_nat (length m)) maxPacketLength) as [Hl|Hl]].
    + eexists _, _. split; [apply IP4Header_Marshal_small; lia|].
      repeat split; intros; try congruence; lia.
    + eexists _, _. split; [apply IP4Header_Marshal_large; lia|].
      repeat split; intros; try congruence; lia.
    + eexists _, _. split; [apply IP4Header_Marshal_run; lia|].
      repeat split; intros; try congruence; lia.
  - destruct (Z_lt_ge_dec (Z.of_nat (length m)) 20) as [Hs|Hs];
      [|destruct (Z_gt_le_dec (Z.of_nat (length m)) maxPacketLength) as [Hl|Hl]].
    + eexists _, _. split; [apply IP4Header_MarshalPseudo_small; lia|].
      repeat split; intros; try congruence; lia.
    + eexists _, _. split; [apply IP4Header_MarshalPseudo_large; lia|].
      repeat split; intros; try congruence; lia.
    + eexists _, _. split; [apply IP4Header_MarshalPseudo_run; lia|].
      repeat split; intros; try congruence; lia.
  - destruct (Z_lt_ge_dec (Z.of_nat (length m)) 24) as [Hs|Hs];
      [|destruct (Z_gt_le_dec (Z.of_nat (length m)) maxPacketLength) as [Hl|Hl]].
    + eexists _, _. split;
        [apply ICMP4Header_Marshal_of_body, ICMP4Header_Marshal_body_small; lia|].
      repeat split; intros; simpl in *; try congruence; lia.
    + eexists _, _. split;
        [apply ICMP4Header_Marshal_of_body, ICMP4Header_Marshal_body_large; lia|].
      repeat split; intros; simpl in *; try congruence; lia.
    + eexists _, _. split; [apply ICMP4Header_Marshal_run; lia|].
      repeat split; intros; try congruence; lia.
Qed.

(** C3. For a buffer of 20 to [maxPacketLength] bytes,
    [IP4Header.Marshal] succeeds and the first twenty bytes are then
    0x45, 0x00, the buffer length, the IPID, two zero bytes, 64, the
    protocol number, the header checksum, the source and the destination
    address, every multi-byte field big-endian; the checksum [ck] is the
    one of these twenty bytes with its own field blank.  The rest of the
    buffer is as it was. *)
Theorem IP4Header_Marshal_layout (h : IP4Header) (m : mem) :
  20 <= Z.of_nat (length m) <= maxPacketLength ->
  exists m' ck,
    IP4Header_Marshal maxPacketLength h (whole m) m = Some (None, m') /\
    take 20 m' =
      [x45; x00] ++ be16 (Z.of_nat (length m)) ++ be16 h.(IPID)
      ++ [x00; x00] ++ [x40] ++ [uint8 h.(IPProto)]
      ++ be16 ck ++ be32 h.(SrcIP) ++ be32 h.(DstIP) /\
    ck = ipChecksum (<[10%nat := x00]> (<[11%nat := x00]> (take 20 m'))) /\
    drop 20 m' = drop 20 m.
Proof.
  intros H.
  exists (ip4_wire h (uint16 (Z.of_nat (length m)))
            (ipChecksum (ip4_wire h (uint16 (Z.of_nat (length m))) 0))
          ++ drop 20 m),
         (ipChecksum (ip4_wire h (uint16 (Z.of_nat (length m))) 0)).
  split; [apply IP4Header_Marshal_run; exact H|].
  rewrite take_app_length', drop_app_length' by reflexivity.
  split; [|split; [|reflexivity]].
  - unfold ip4_wire. rewrite be16_uint16. reflexivity.
  - apply (f_equal ipChecksum). unfold ip4_wire.
    generalize (ipChecksum
      ([x45; x00] ++ be16 (uint16 (Z.of_nat (length m))) ++ be16 (IPID h)
       ++ [x00; x00; x40; uint8 (IPProto h)] ++ be16 0
       ++ be32 (SrcIP h) ++ be32 (DstIP h))) as ck.
    intros ck. reflexivity.
Qed.

(** C5. For a buffer of 20 to [maxPacketLength] bytes, after
    [IP4Header.Marshal] the checksum of bytes 0 to 19, taken with the
    written checksum in place, is 0. *)
Theorem IP4Header_Marshal_checksum_validates (h : IP4Header) (m : mem) :
  20 <= Z.of_nat (length m) <= maxPacketLength ->
  exists m',
    IP4Header_Marshal maxPacketLength h (whole m) m = Some (None, m') /\
    ipChecksum (take 20 m') = 0.
Proof.
  intros H. eexists. split; [apply IP4Header_Marshal_run; exact H|].
  rewrite take_app_length' by reflexivity.
  apply ipChecksum_ip4_wire.
Qed.

(** C4 (amended). For a buffer of 20 to [maxPacketLength] bytes,
    [IP4Header.MarshalPseudo] succeeds; it writes bytes 8 to 19 only:
    source address, destination address, a zero byte, the protocol
    number and the 16-bit length [len(buf) - 20], big-endian.  Bytes 0
    to 7 are not written: they are what the caller left there, zero
    only if they were zero before.  The rest of the buffer is as it
    was. *)
Theorem IP4Header_MarshalPseudo_layout (h : IP4Header) (m : mem) :
  20 <= Z.of_nat (length m) <= maxPacketLength ->
  exists m',
    IP4Header_MarshalPseudo maxPacketLength h (whole m) m = Some (None, m') /\
    take 8 m' = take 8 m /\
    take 12 (drop 8 m') =
      be32 h.(SrcIP) ++ be32 h.(DstIP) ++ [x00] ++ [uint8 h.(IPProto)]
      ++ be16 (Z.of_nat (length m) - 20) /\
    drop 20 m' = drop 20 m.
Proof.
  intros H. eexists. split; [apply IP4Header_MarshalPseudo_run; exact H|].
  assert (Hl : 8%nat = length (take 8 m)) by (rewrite length_take; lia).
  rewrite be16_uint16.
  split; [|split].
  - rewrite take_app_length' by exact Hl. reflexivity.
  - rewrite drop_app_length' by exact Hl. reflexivity.
  - rewrite (app_assoc (take 8 m)), (app_assoc (take 8 m ++ _)),
      (app_assoc ((take 8 m ++ _) ++ _)), (app_assoc (((take 8 m ++ _) ++ _) ++ _)).
    apply drop_app_length'. rewrite !length_app, <- Hl. reflexivity.
Qed.

(** C9. Under the length check [ICMP4Header.Marshal] has already made
    (24 to [maxPacketLength] bytes), the inner [IP4Header.Marshal] call,
    made on the store [m1] in which type and code are written, returns
    [nil]: neither of its error branches is taken and it does not
    panic.  The outer body goes on from the store [m2] that call leaves,
    so dropping its result hides no failure. *)
Theorem ICMP4Header_Marshal_inner_call_succeeds (h : ICMP4Header) (m : mem) :
  24 <= Z.of_nat (length m) <= maxPacketLength ->
  let h' := set_IPProto ICMP h in
  let m1 := <[21%nat := uint8 h'.(Code)]> (<[20%nat := uint8 h'.(Type_)]> m) in
  exists m2,
    IP4Header_Marshal maxPacketLength h'.(IP4Hdr) (whole m) m1 = Some (None, m2) /\
    ICMP4Header_Marshal_body maxPacketLength h (whole m) m =
      ((s <- sub (whole m) 22 24 ;;
        bs <- contents (whole m) ;;
        put16 s (ipChecksum bs)) ;;;
       ret (h', None)) m2.
Proof.
  intros [Hlo Hhi] h' m1.
  assert (Hlen1 : length m1 = length m)
    by (unfold m1; rewrite !length_insert; reflexivity).
  assert (Hinner : IP4Header_Marshal maxPacketLength h'.(IP4Hdr) (whole m) m1 =
            Some (None,
                  ip4_wire h'.(IP4Hdr) (uint16 (Z.of_nat (length m1)))
                    (ipChecksum (ip4_wire h'.(IP4Hdr) (uint16 (Z.of_nat (length m1))) 0))
                  ++ drop 20 m1)).
  { replace (whole m) with (whole m1) by (unfold whole; rewrite Hlen1; reflexivity).
    apply IP4Header_Marshal_run. lia. }
  eexists. split; [exact Hinner|].
  unfold ICMP4Header_Marshal_body.
  change (len (whole m)) with (Z.of_nat (length m)).
  destruct (Z.ltb_spec (Z.of_nat (length m)) icmpAllHeadersLength) as [Hc|_];
    [change icmpAllHeadersLength with 24 in Hc; lia|].
  destruct (Z.gtb_spec (Z.of_nat (length m)) maxPacketLength) as [Hc|_]; [lia|].
  cbv zeta. fold h'.
  unfold bind at 1. rewrite store_whole by lia.
  unfold bind at 1. rewrite store_whole by lia. fold m1.
  unfold bind at 1. rewrite Hinner. reflexivity.
Qed.

Lemma get_var_at (l : nat) (v : ICMP4Header) (st : state) :
  st.(vars) !! l = Some v -> get_var l st = Some (v, st).
Proof. intros H. unfold get_var. rewrite H. reflexivity. Qed.

Lemma set_var_at (l : nat) (v w : ICMP4Header) (st : state) :
  st.(vars) !! l = Some v ->
  set_var l w st = Some (tt, {| vars := <[l := w]> st.(vars); bytes := st.(bytes) |}).
Proof.
  intros H. unfold set_var. apply lookup_lt_Some in H.
  destruct (Nat.ltb_spec l (length (vars st))); [reflexivity | lia].
Qed.

Lemma assign_at (l : nat) (v : ICMP4Header) (f : ICMP4Header -> ICMP4Header)
    (st : state) :
  st.(vars) !! l = Some v ->
  (w <~ get_var l ;; set_var l (f w)) st
  = Some (tt, {| vars := <[l := f v]> st.(vars); bytes := st.(bytes) |}).
Proof.
  intros H. unfold bindP. rewrite (get_var_at l v) by exact H.
  apply (set_var_at l v). exact H.
Qed.

(** The body on the variable of its receiver does to the byte store,
    and returns, what [ICMP4Header_Marshal_body] does on the value the
    variable holds, and it leaves in that variable, and in no other,
    the final value of the receiver. *)
Lemma ICMP4Header_Marshal_on_body (l : nat) (v : ICMP4Header) (buf : slice) (st : state) :
  st.(vars) !! l = Some v ->
  ICMP4Header_Marshal_on maxPacketLength l buf st =
    match ICMP4Header_Marshal_body maxPacketLength v buf st.(bytes) with
    | Some ((v', e), m') => Some (e, {| vars := <[l := v']> st.(vars); bytes := m' |})
    | None => None
    end.
Proof.
  intros Hl. destruct st as [vs m]. simpl in *.
  unfold ICMP4Header_Marshal_on, ICMP4Header_Marshal_body.
  destruct (len buf <? icmpAllHeadersLength);
    [unfold retP, ret; rewrite list_insert_id by exact Hl; reflexivity|].
  destruct (len buf >? maxPacketLength);
    [unfold retP, ret; rewrite list_insert_id by exact Hl; reflexivity|].
  cbv zeta.
  assert (Hl' : <[l := set_IPProto ICMP v]> vs !! l = Some (set_IPProto ICMP v))
    by (apply list_lookup_insert_eq; apply lookup_lt_Some in Hl; exact Hl).
  set (tl := (s <- sub buf 22 24 ;; bs <- contents buf ;; put16 s (ipChecksum bs))).
  unfold bindP, bind, lift.
  rewrite (get_var_at l v) by exact Hl.
  rewrite (set_var_at l v) by exact Hl. simpl vars. simpl bytes.
  rewrite (get_var_at l (set_IPProto ICMP v)) by exact Hl'. simpl bytes.
  destruct (store buf 20 _ m) as [[[] m1]|]; [|reflexivity].
  simpl vars.
  rewrite (get_var_at l (set_IPProto ICMP v)) by exact Hl'. simpl bytes.
  destruct (store buf 21 _ m1) as [[[] m2]|]; [|reflexivity].
  simpl vars.
  rewrite (get_var_at l (set_IPProto ICMP v)) by exact Hl'. simpl bytes.
  destruct (IP4Header_Marshal maxPacketLength _ buf m2) as [[e3 m3]|]; [|reflexivity].
  simpl vars. simpl bytes.
  destruct (tl m3) as [[[] m4]|]; [|reflexivity].
  reflexivity.
Qed.

(** C10. [ICMP4Header.Marshal] has a value receiver.  For every state
    in which the caller's variable [x] holds a header [h], and for the
    whole byte store as buffer, the call returns; every header variable
    of the caller, [x] among them, holds what it held before; the
    result and the bytes are those of the method on the value [h]; and
    on success byte 9 is 1 while the forced protocol is in the local
    copy only: the body did assign to the variable of its receiver,
    which is the copy and not [x]. *)
Theorem ICMP4Header_Marshal_keeps_caller_header
    (st : state) (x : nat) (h : ICMP4Header) :
  st.(vars) !! x = Some h ->
  exists e st' stl,
    call_value x (fun l => ICMP4Header_Marshal_on maxPacketLength l (whole st.(bytes))) st
      = Some (e, st') /\
    st'.(vars) = st.(vars) /\
    ICMP4Header_Marshal maxPacketLength h (whole st.(bytes)) st.(bytes)
      = Some (e, st'.(bytes)) /\
    ICMP4Header_Marshal_on maxPacketLength (length st.(vars)) (whole st.(bytes))
      {| vars := st.(vars) ++ [h]; bytes := st.(bytes) |} = Some (e, stl) /\
    stl.(vars) !! x = Some h /\
    (e = None ->
       st'.(bytes) !! 9%nat = Some x01 /\
       stl.(vars) !! length st.(vars) = Some (set_IPProto ICMP h)).
Proof.
  intros Hx. destruct st as [vs m]. simpl in *.
  pose proof (lookup_lt_Some _ _ _ Hx) as Hlt.
  assert (Hl : (vs ++ [h]) !! length vs = Some h)
    by (rewrite lookup_app_r by lia; rewrite Nat.sub_diag; reflexivity).
  assert (Hpop : forall w, take (length vs) (<[length vs := w]> (vs ++ [h])) = vs).
  { intros w. rewrite take_insert_ge by lia. apply take_app_length. }
  assert (Hkeep : forall w, <[length vs := w]> (vs ++ [h]) !! x = Some h).
  { intros w. rewrite list_lookup_insert_ne by lia.
    rewrite lookup_app_l by lia. exact Hx. }
  assert (Hloc : forall w, <[length vs := w]> (vs ++ [h]) !! length vs = Some w).
  { intros w. apply list_lookup_insert_eq. rewrite length_app. simpl. lia. }
  unfold call_value. simpl vars. simpl bytes. rewrite Hx. cbv zeta.
  rewrite (ICMP4Header_Marshal_on_body (length vs) h) by exact Hl.
  simpl bytes. simpl vars.
  destruct (Z_lt_ge_dec (Z.of_nat (length m)) 24) as [Hs|Hs];
    [|destruct (Z_gt_le_dec (Z.of_nat (length m)) maxPacketLength) as [Hg|Hg]].
  - rewrite (ICMP4Header_Marshal_of_body _ _ _ _
               (ICMP4Header_Marshal_body_small h m Hs)).
    rewrite ICMP4Header_Marshal_body_small by exact Hs.
    eexists _, _, _. split; [reflexivity|]. simpl.
    split; [apply Hpop|]. split; [reflexivity|]. split; [reflexivity|].
    split; [apply Hkeep | discriminate].
  - rewrite (ICMP4Header_Marshal_of_body _ _ _ _
               (ICMP4Header_Marshal_body_large h m ltac:(lia) Hg)).
    rewrite ICMP4Header_Marshal_body_large by lia.
    eexists _, _, _. split; [reflexivity|]. simpl.
    split; [apply Hpop|]. split; [reflexivity|]. split; [reflexivity|].
    split; [apply Hkeep | discriminate].
  - rewrite ICMP4Header_Marshal_run by lia.
    rewrite ICMP4Header_Marshal_body_run by lia.
    eexists _, _, _. split; [reflexivity|]. simpl.
    split; [apply Hpop|]. split; [reflexivity|]. split; [reflexivity|].
    split; [apply Hkeep|]. intros _. split; [reflexivity | apply Hloc].
Qed.

(** By contrast [ICMP4Header.ToResponse], whose receiver is a pointer,
    changes the caller's variable. *)
Lemma ICMP4Header_ToResponse_changes_caller
    (st : state) (x : nat) (h : ICMP4Header) :
  st.(vars) !! x = Some h ->
  call_pointer x ICMP4Header_ToResponse_on st =
    Some (tt, {| vars := <[x := ICMP4Header_ToResponse h]> st.(vars);
                 bytes := st.(bytes) |}).
Proof.
  intros Hx. destruct st as [vs m]. simpl in *.
  pose proof (lookup_lt_Some _ _ _ Hx) as Hlt.
  unfold call_pointer, ICMP4Header_ToResponse_on.
  unfold bindP at 1. rewrite (assign_at x h) by exact Hx. simpl vars. simpl bytes.
  unfold bindP at 1.
  rewrite (assign_at x {| IP4Hdr := IP4Hdr h; Type_ := ICMP4EchoReply; Code := Code h |})
    by (apply list_lookup_insert_eq; exact Hlt).
  simpl vars. simpl bytes. rewrite list_insert_insert_eq.
  rewrite (assign_at x {| IP4Hdr := IP4Hdr h; Type_ := ICMP4EchoReply; Code := ICMP4NoCode |})
    by (apply list_lookup_insert_eq; exact Hlt).
  simpl vars. simpl bytes. rewrite list_insert_insert_eq.
  reflexivity.
Qed.

(** What [ICMP4Header.Marshal] sums, for every buffer: the whole
    buffer with the final IP header, type and code, and in the checksum
    field the two bytes the caller's buffer held there.  The field is
    not blanked first. *)
Lemma ICMP4Header_Marshal_checksum (h : ICMP4Header) (m : mem) :
  24 <= Z.of_nat (length m) <= maxPacketLength ->
  exists m',
    ICMP4Header_Marshal maxPacketLength h (whole m) m = Some (None, m') /\
    take 2 (drop 22 m') =
      be16 (ipChecksum (take 22 m' ++ take 2 (drop 22 m) ++ drop 24 m')).
Proof.
  intros H. eexists. split; [apply ICMP4Header_Marshal_run; exact H|].
  pose proof (length_icmp_summed h m ltac:(lia)) as HlS.
  assert (Hl : 22%nat = length (take 22 (icmp_summed h m)))
    by (rewrite length_take; lia).
  assert (HS : icmp_summed h m =
               take 22 (icmp_summed h m) ++ take 2 (drop 22 m) ++ drop 24 m).
  { rewrite <- (take_drop 22 (icmp_summed h m)) at 1. f_equal.
    transitivity (drop 22 m).
    - unfold icmp_summed. cbv zeta. rewrite app_assoc.
      apply drop_app_length'. reflexivity.
    - rewrite <- (take_drop 2 (drop 22 m)) at 1. rewrite drop_drop. reflexivity. }
  rewrite take_app_length' by exact Hl.
  rewrite drop_app_length' by exact Hl.
  rewrite (app_assoc (take 22 _) (be16 _)).
  rewrite (drop_app_length' _ _ 24)
    by (rewrite length_app, <- Hl; reflexivity).
  rewrite <- HS. reflexivity.
Qed.

End MarshalRuns.

(** ** [ToResponse] *)

Lemma uint16_lnot (x : Z) : 0 <= x < 65536 -> uint16 (Z.lnot x) = 65535 - x.
Proof.
  intros Hx. unfold uint16, Z.lnot.
  replace (Z.pred (- x)) with (65535 - x + (-1) * 65536) by lia.
  rewrite Z.mod_add by lia. apply Z.mod_small. lia.
Qed.

(** C7. On a header whose IPID is a 16-bit value, [ToResponse] applied
    twice gives the header back; applied once it swaps source and
    destination, complements every one of the sixteen IPID bits and
    leaves the protocol, the only other field, alone. *)
Theorem IP4Header_ToResponse_involutive (h : IP4Header) :
  0 <= h.(IPID) < 65536 ->
  IP4Header_ToResponse (IP4Header_ToResponse h) = h /\
  (IP4Header_ToResponse h).(SrcIP) = h.(DstIP) /\
  (IP4Header_ToResponse h).(DstIP) = h.(SrcIP) /\
  (forall i, 0 <= i < 16 ->
     Z.testbit (IP4Header_ToResponse h).(IPID) i = negb (Z.testbit h.(IPID) i)) /\
  (IP4Header_ToResponse h).(IPProto) = h.(IPProto).
Proof.
  intros Hid. destruct h as [p id s d]. simpl in *.
  repeat split.
  - unfold IP4Header_ToResponse. simpl. f_equal.
    rewrite (uint16_lnot id Hid). rewrite uint16_lnot by lia. lia.
  - intros i Hi. unfold uint16. change 65536 with (2 ^ 16).
    rewrite Z.mod_pow2_bits_low by lia. apply Z.lnot_spec. lia.
Qed.

(** ** Totality *)

Lemma byte_val_inj (a b : byte) : byte_val a = byte_val b -> a = b.
Proof.
  intros H. rewrite <- (uint8_byte_val a), <- (uint8_byte_val b), H. reflexivity.
Qed.

(** [NewIP4] returns on the values [To4] accepts, leaving the store as
    it was, and panics on every other one. *)
Lemma NewIP4_cases (m : mem) :
  (isIPv4 m /\ exists v, NewIP4 (whole m) m = Some (v, m)) \/
  (~ isIPv4 m /\ NewIP4 (whole m) m = None).
Proof.
  unfold isIPv4, NewIP4, To4, whole. simpl size. unfold bind at 1.
  destruct (Nat.eqb_spec (length m) 4) as [H4|H4].
  - left. split; [left; exact H4|].
    do 4 (destruct m as [|? m]; [discriminate H4|]).
    destruct m; [|discriminate H4].
    eexists. reflexivity.
  - destruct (Nat.eqb_spec (length m) 16) as [H16|H16].
    + do 16 (destruct m as [|? m]; [discriminate H16|]).
      destruct m; [|discriminate H16].
      unfold bind, sub, contents, load, view, ret.
      cbn -[byte_val Z.eqb get32 isZeros].
      unfold v4InV6Prefix.
      match goal with
      | |- context [if ?c then _ else _] => destruct c eqn:E
      end.
      * left. split; [right; split; [reflexivity|]|eexists; reflexivity].
        cbn [isZeros forallb] in E.
        rewrite !andb_true_iff, !Z.eqb_eq in E.
        destruct E as [[(?&?&?&?&?&?&?&?&?&?&_) ?] ?].
        repeat match goal with
               | H : byte_val ?b = 0 |- _ =>
                   apply (byte_val_inj b x00) in H; subst b
               | H : byte_val ?b = 255 |- _ =>
                   apply (byte_val_inj b xff) in H; subst b
               end.
        reflexivity.
      * right. split; [|reflexivity].
        intros [Hc|[_ Hc]]; [discriminate Hc|].
        injection Hc as -> -> -> -> -> -> -> -> -> -> -> ->.
        discriminate E.
    + right. split; [|reflexivity].
      intros [Hc|[Hc _]]; contradiction.
Qed.

(** C8 (amended). [NewIP4] returns exactly when its argument is four
    bytes long or is an IPv4-mapped sixteen-byte value, and panics, as
    its comment says, on any other value; [IP4.Netaddr] yields four
    octets that read back as the address, the checksum of any byte
    sequence is a 16-bit value, and both [ToResponse] methods yield a
    header with a 16-bit IPID.  None of the latter has an error result
    or a panic. *)
Theorem conversions_checksum_ToResponse_total :
  (forall m : mem,
     isIPv4 m -> exists v, NewIP4 (whole m) m = Some (v, m)) /\
  (forall m : mem,
     ~ isIPv4 m -> NewIP4 (whole m) m = None) /\
  (forall ip : IP4, 0 <= ip < 4294967296 ->
     let '(a, b, c, d) := Netaddr ip in be_decode [a; b; c; d] = ip) /\
  (forall b : list byte, 0 <= ipChecksum b < 65536) /\
  (forall h : IP4Header, 0 <= (IP4Header_ToResponse h).(IPID) < 65536) /\
  (forall h : ICMP4Header,
     0 <= (ICMP4Header_ToResponse h).(IP4Hdr).(IPID) < 65536 /\
     (ICMP4Header_ToResponse h).(Type_) = ICMP4EchoReply /\
     (ICMP4Header_ToResponse h).(Code) = ICMP4NoCode).
Proof.
  split.
  { intros m Hm. destruct (NewIP4_cases m) as [[_ H]|[Hn _]]; [exact H|contradiction]. }
  split.
  { intros m Hm. destruct (NewIP4_cases m) as [[H _]|[_ H]]; [contradiction|exact H]. }
  split.
  { intros ip Hip. apply (be_decode_be32 ip Hip). }
  split; [exact ipChecksum_range|].
  split.
  { intros h. simpl. unfold uint16. apply Z.mod_pos_bound. lia. }
  intros h. simpl. split; [|split; reflexivity].
  unfold uint16. apply Z.mod_pos_bound. lia.
Qed.

(** * Concrete runs *)

Example tcp_scenario :
  IP4Header_Marshal maxUint16 tcp_header (whole (zeros 20)) (zeros 20) =
    Some (None, [x45; x00; x00; x14; x12; x34; x00; x00; x40; x06;
                 x54; xae; x0a; x00; x00; x01; x0a; x00; x00; x02]).
Proof. vm_compute. reflexivity. Qed.

Example multicast_scenarios :
  IsMulticast 0xe0000001 = true /\ IsMulticast 0x0a000001 = false /\
  IsLinkLocalUnicast 0xa9fe0101 = true /\ IsLinkLocalUnicast 0xa9fd0101 = false.
Proof. repeat split; reflexivity. Qed.

Example NewIP4_four_bytes :
  NewIP4 (whole [x0a; x00; x00; x01]) [x0a; x00; x00; x01] =
    Some (0x0a000001, [x0a; x00; x00; x01]).
Proof. vm_compute. reflexivity. Qed.

(** C6 (the code at the failing input). On [stale_buffer],
    [ICMP4Header.Marshal] succeeds and the checksum it writes at bytes
    22 and 23 is the sum taken with the caller's stale bytes 0x00 0x01
    in the checksum field (0xf7fe), not the sum taken with that field
    zero (0xf7ff). *)
Theorem ICMP4Header_Marshal_sums_stale_field :
  exists m',
    ICMP4Header_Marshal maxUint16 echo_request (whole stale_buffer) stale_buffer
      = Some (None, m') /\
    take 2 (drop 22 m') =
      be16 (ipChecksum (take 22 m' ++ [x00; x01] ++ drop 24 m')) /\
    take 2 (drop 22 m') = [xf7; xfe] /\
    be16 (ipChecksum (take 22 m' ++ [x00; x00] ++ drop 24 m')) = [xf7; xff].
Proof.
  eexists. split; [vm_compute; reflexivity|].
  split; [|split]; vm_compute; reflexivity.
Qed.

(** On a buffer that is zero in the checksum field the same call gives
    a different checksum, the one of the field-blank sum. *)
Example ICMP4Header_Marshal_blank_field :
  exists m',
    ICMP4Header_Marshal maxUint16 echo_request (whole (zeros 24)) (zeros 24)
      = Some (None, m') /\
    take 2 (drop 22 m') =
      be16 (ipChecksum (take 22 m' ++ [x00; x00] ++ drop 24 m')) /\
    take 2 (drop 22 m') = [xf7; xff].
Proof.
  eexists. split; [vm_compute; reflexivity|].
  split; vm_compute; reflexivity.
Qed.

(** On a buffer of 0xff bytes [IP4Header.MarshalPseudo] succeeds and
    bytes 0 to 7 are still 0xff, not zero. *)
Lemma IP4Header_MarshalPseudo_keeps_leading_bytes :
  exists m',
    IP4Header_MarshalPseudo maxUint16 tcp_header (whole dirty_buffer) dirty_buffer
      = Some (None, m') /\
    take 8 m' = replicate 8 xff /\
    take 8 m' <> replicate 8 x00.
Proof.
  eexists. split; [vm_compute; reflexivity|].
  split; vm_compute; [reflexivity | discriminate].
Qed.

(** [NewIP4] on the IPv6 loopback address panics. *)
Lemma NewIP4_panics_on_IPv6 :
  NewIP4 (whole ipv6_loopback) ipv6_loopback = None.
Proof. vm_compute. reflexivity. Qed.

(** ** Instances of the conditional theorems *)

Lemma ICMP4Header_Marshal_forces_ICMP_witness :
  24 <= Z.of_nat (length (zeros 24)) <= maxUint16 /\
  exists m',
    ICMP4Header_Marshal maxUint16 echo_request (whole (zeros 24)) (zeros 24)
      = Some (None, m') /\
    m' !! 9%nat = Some x01.
Proof.
  split; [vm_compute; split; discriminate|].
  apply (ICMP4Header_Marshal_forces_ICMP maxUint16 echo_request (zeros 24)).
  vm_compute; split; discriminate.
Defined.

Lemma Marshal_length_errors_witness :
  icmpAllHeadersLength <= maxUint16 /\
  (length_checked maxUint16 20 (zeros 10)
     (IP4Header_Marshal maxUint16 tcp_header (whole (zeros 10)) (zeros 10)) /\
   length_checked maxUint16 20 (zeros 10)
     (IP4Header_MarshalPseudo maxUint16 tcp_header (whole (zeros 10)) (zeros 10)) /\
   length_checked maxUint16 24 (zeros 10)
     (ICMP4Header_Marshal maxUint16 echo_request (whole (zeros 10)) (zeros 10))).
Proof.
  split; [vm_compute; discriminate|].
  apply (Marshal_length_errors maxUint16 tcp_header echo_request (zeros 10)).
  vm_compute; discriminate.
Defined.

Lemma IP4Header_Marshal_layout_witness :
  20 <= Z.of_nat (length (zeros 20)) <= maxUint16 /\
  exists m' ck,
    IP4Header_Marshal maxUint16 tcp_header (whole (zeros 20)) (zeros 20)
      = Some (None, m') /\
    take 20 m' =
      [x45; x00] ++ be16 (Z.of_nat (length (zeros 20))) ++ be16 tcp_header.(IPID)
      ++ [x00; x00] ++ [x40] ++ [uint8 tcp_header.(IPProto)]
      ++ be16 ck ++ be32 tcp_header.(SrcIP) ++ be32 tcp_header.(DstIP) /\
    ck = ipChecksum (<[10%nat := x00]> (<[11%nat := x00]> (take 20 m'))) /\
    drop 20 m' = drop 20 (zeros 20).
Proof.
  split; [vm_compute; split; discriminate|].
  apply (IP4Header_Marshal_layout maxUint16 tcp_header (zeros 20)).
  vm_compute; split; discriminate.
Defined.

Lemma IP4Header_MarshalPseudo_layout_witness :
  20 <= Z.of_nat (length dirty_buffer) <= maxUint16 /\
  exists m',
    IP4Header_MarshalPseudo maxUint16 tcp_header (whole dirty_buffer) dirty_buffer
      = Some (None, m') /\
    take 8 m' = take 8 dirty_buffer /\
    take 12 (drop 8 m') =
      be32 tcp_header.(SrcIP) ++ be32 tcp_header.(DstIP) ++ [x00]
      ++ [uint8 tcp_header.(IPProto)]
      ++ be16 (Z.of_nat (length dirty_buffer) - 20) /\
    drop 20 m' = drop 20 dirty_buffer.
Proof.
  split; [vm_compute; split; discriminate|].
  apply (IP4Header_MarshalPseudo_layout maxUint16 tcp_header dirty_buffer).
  vm_compute; split; discriminate.
Defined.

Lemma IP4Header_Marshal_checksum_validates_witness :
  20 <= Z.of_nat (length (zeros 20)) <= maxUint16 /\
  exists m',
    IP4Header_Marshal maxUint16 tcp_header (whole (zeros 20)) (zeros 20)
      = Some (None, m') /\
    ipChecksum (take 20 m') = 0.
Proof.
  split; [vm_compute; split; discriminate|].
  apply (IP4Header_Marshal_checksum_validates maxUint16 tcp_header (zeros 20)).
  vm_compute; split; discriminate.
Defined.

Lemma IP4Header_ToResponse_involutive_witness :
  0 <= tcp_header.(IPID) < 65536 /\
  (IP4Header_ToResponse (IP4Header_ToResponse tcp_header) = tcp_header /\
   (IP4Header_ToResponse tcp_header).(SrcIP) = tcp_header.(DstIP) /\
   (IP4Header_ToResponse tcp_header).(DstIP) = tcp_header.(SrcIP) /\
   (forall i, 0 <= i < 16 ->
      Z.testbit (IP4Header_ToResponse tcp_header).(IPID) i
      = negb (Z.testbit tcp_header.(IPID) i)) /\
   (IP4Header_ToResponse tcp_header).(IPProto) = tcp_header.(IPProto)).
Proof.
  split; [vm_compute; split; [discriminate | reflexivity]|].
  apply (IP4Header_ToResponse_involutive tcp_header).
  vm_compute; split; [discriminate | reflexivity].
Defined.

Lemma ICMP4Header_Marshal_inner_call_succeeds_witness :
  24 <= Z.of_nat (length stale_buffer) <= maxUint16 /\
  (let h' := set_IPProto ICMP echo_request in
   let m1 := <[21%nat := uint8 h'.(Code)]>
               (<[20%nat := uint8 h'.(Type_)]> stale_buffer) in
   exists m2,
     IP4Header_Marshal maxUint16 h'.(IP4Hdr) (whole stale_buffer) m1
       = Some (None, m2) /\
     ICMP4Header_Marshal_body maxUint16 echo_request (whole stale_buffer) stale_buffer =
       ((s <- sub (whole stale_buffer) 22 24 ;;
         bs <- contents (whole stale_buffer) ;;
         put16 s (ipChecksum bs)) ;;;
        ret (h', None)) m2).
Proof.
  split; [vm_compute; split; discriminate|].
  apply (ICMP4Header_Marshal_inner_call_succeeds maxUint16 echo_request stale_buffer).
  vm_compute; split; discriminate.
Defined.

Lemma ICMP4Header_Marshal_keeps_caller_header_witness :
  {| vars := [echo_request]; bytes := zeros 24 |}.(vars) !! 0%nat = Some echo_request /\
  exists e st' stl,
    call_value 0
      (fun l => ICMP4Header_Marshal_on maxUint16 l
                  (whole {| vars := [echo_request]; bytes := zeros 24 |}.(bytes)))
      {| vars := [echo_request]; bytes := zeros 24 |}
      = Some (e, st') /\
    st'.(vars) = {| vars := [echo_request]; bytes := zeros 24 |}.(vars) /\
    ICMP4Header_Marshal maxUint16 echo_request
      (whole {| vars := [echo_request]; bytes := zeros 24 |}.(bytes))
      {| vars := [echo_request]; bytes := zeros 24 |}.(bytes)
      = Some (e, st'.(bytes)) /\
    ICMP4Header_Marshal_on maxUint16
      (length {| vars := [echo_request]; bytes := zeros 24 |}.(vars))
      (whole {| vars := [echo_request]; bytes := zeros 24 |}.(bytes))
      {| vars := {| vars := [echo_request]; bytes := zeros 24 |}.(vars) ++ [echo_request];
         bytes := {| vars := [echo_request]; bytes := zeros 24 |}.(bytes) |}
      = Some (e, stl) /\
    stl.(vars) !! 0%nat = Some echo_request /\
    (e = None ->
       st'.(bytes) !! 9%nat = Some x01 /\
       stl.(vars) !! length {| vars := [echo_request]; bytes := zeros 24 |}.(vars)
       = Some (set_IPProto ICMP echo_request)).
Proof.
  split; [reflexivity|].
  apply (ICMP4Header_Marshal_keeps_caller_header maxUint16
           {| vars := [echo_request]; bytes := zeros 24 |} 0 echo_request).
  reflexivity.
Defined.

(** * Further properties of the two files *)

(** ** Addresses *)

Lemma byte_val_octet (ip k : Z) :
  0 <= ip < 4294967296 -> 0 <= k ->
  byte_val (uint8 (Z.shiftr ip k)) = (ip / 2 ^ k) mod 256.
Proof.
  intros Hip Hk. rewrite byte_val_uint8, Z.shiftr_div_pow2 by lia. reflexivity.
Qed.

Lemma multicast_mask (b : byte) :
  (Z.land (byte_val b) 0xf0 =? 0xe0) = (224 <=? byte_val b) && (byte_val b <? 240).
Proof. destruct b; reflexivity. Qed.

(** X1. On a 32-bit address [IsMulticast] holds exactly on
    224.0.0.0/4, the addresses from 224.0.0.0 to 239.255.255.255. *)
Theorem IsMulticast_range (ip : IP4) :
  0 <= ip < 4294967296 ->
  IsMulticast ip = true <-> 0xe0000000 <= ip < 0xf0000000.
Proof.
  intros Hip. unfold IsMulticast. rewrite multicast_mask.
  rewrite (byte_val_octet ip 24) by lia. change (2 ^ 24) with 16777216.
  assert (0 <= ip / 16777216 < 256)
    by (split; [apply Z.div_pos | apply Z.div_lt_upper_bound]; lia).
  rewrite Z.mod_small by lia.
  rewrite andb_true_iff, Z.leb_le, Z.ltb_lt.
  pose proof (Z.div_mod ip 16777216 ltac:(lia)).
  pose proof (Z.mod_pos_bound ip 16777216 ltac:(lia)).
  lia.
Qed.

(** X2. On a 32-bit address [IsLinkLocalUnicast] holds exactly on
    169.254.0.0/16. *)
Theorem IsLinkLocalUnicast_range (ip : IP4) :
  0 <= ip < 4294967296 ->
  IsLinkLocalUnicast ip = true <-> 0xa9fe0000 <= ip < 0xa9ff0000.
Proof.
  intros Hip. unfold IsLinkLocalUnicast.
  rewrite (byte_val_octet ip 24), (byte_val_octet ip 16) by lia.
  change (2 ^ 24) with 16777216. change (2 ^ 16) with 65536.
  assert (0 <= ip / 16777216 < 256)
    by (split; [apply Z.div_pos | apply Z.div_lt_upper_bound]; lia).
  rewrite (Z.mod_small (ip / 16777216)) by lia.
  rewrite andb_true_iff, !Z.eqb_eq.
  pose proof (Z.div_mod ip 65536 ltac:(lia)).
  pose proof (Z.mod_pos_bound ip 65536 ltac:(lia)).
  pose proof (Z.div_mod (ip / 65536) 256 ltac:(lia)).
  pose proof (Z.mod_pos_bound (ip / 65536) 256 ltac:(lia)).
  assert (ip / 16777216 = ip / 65536 / 256) as ->
    by (rewrite Z.div_div by lia; reflexivity).
  lia.
Qed.

(** Bytes placed side by side: [lor] of a shifted value and a smaller
    one is their sum. *)
Lemma lor_shiftl_add (a b n : Z) :
  0 <= n -> 0 <= b < 2 ^ n -> Z.lor (Z.shiftl a n) b = a * 2 ^ n + b.
Proof.
  intros Hn Hb.
  assert (Hland : Z.land (Z.shiftl a n) b = 0).
  { apply Z.bits_inj'. intros i Hi.
    rewrite Z.land_spec, Z.bits_0.
    destruct (Z_lt_ge_dec i n) as [Hlt|Hge].
    - rewrite Z.shiftl_spec_low by lia. reflexivity.
    - rewrite <- (Z.mod_small b (2 ^ n)) by lia.
      rewrite Z.mod_pow2_bits_high by lia. apply andb_false_r. }
  rewrite <- Z.lxor_lor by exact Hland.
  rewrite <- Z.add_nocarry_lxor by exact Hland.
  rewrite Z.shiftl_mul_pow2 by lia. reflexivity.
Qed.

Lemma get32_value (b0 b1 b2 b3 : byte) :
  Z.lor (Z.lor (Z.shiftl (byte_val b0) 24) (Z.shiftl (byte_val b1) 16))
        (Z.lor (Z.shiftl (byte_val b2) 8) (byte_val b3))
  = be_decode [b0; b1; b2; b3].
Proof.
  pose proof (byte_val_range b0). pose proof (byte_val_range b1).
  pose proof (byte_val_range b2). pose proof (byte_val_range b3).
  rewrite (lor_shiftl_add (byte_val b2) (byte_val b3) 8) by lia.
  replace (Z.shiftl (byte_val b0) 24) with (Z.shiftl (byte_val b0 * 2 ^ 8) 16)
    by (rewrite !Z.shiftl_mul_pow2 by lia; lia).
  replace (Z.lor (Z.shiftl (byte_val b0 * 2 ^ 8) 16) (Z.shiftl (byte_val b1) 16))
    with (Z.shiftl (Z.lor (byte_val b0 * 2 ^ 8) (byte_val b1)) 16)
    by (apply Z.shiftl_lor).
  rewrite <- (Z.shiftl_mul_pow2 (byte_val b0) 8) by lia.
  rewrite (lor_shiftl_add (byte_val b0) (byte_val b1) 8) by lia.
  rewrite (lor_shiftl_add _ (byte_val b2 * 2 ^ 8 + byte_val b3) 16) by lia.
  unfold be_decode. simpl. lia.
Qed.

Lemma NewIP4_four (b0 b1 b2 b3 : byte) :
  NewIP4 (whole [b0; b1; b2; b3]) [b0; b1; b2; b3]
  = Some (be_decode [b0; b1; b2; b3], [b0; b1; b2; b3]).
Proof.
  rewrite <- get32_value. reflexivity.
Qed.

(** X3. [NewIP4] undoes [Netaddr]: on the four octets [Netaddr] gives
    for a 32-bit address it returns that address and only reads. *)
Theorem NewIP4_Netaddr (ip : IP4) :
  0 <= ip < 4294967296 ->
  let '(a, b, c, d) := Netaddr ip in
  NewIP4 (whole [a; b; c; d]) [a; b; c; d] = Some (ip, [a; b; c; d]).
Proof.
  intros Hip. unfold Netaddr. rewrite NewIP4_four.
  change [uint8 (Z.shiftr ip 24); uint8 (Z.shiftr ip 16);
          uint8 (Z.shiftr ip 8); uint8 ip] with (be32 ip).
  rewrite be_decode_be32 by exact Hip. reflexivity.
Qed.

Lemma be_decode_range4 (b0 b1 b2 b3 : byte) :
  0 <= be_decode [b0; b1; b2; b3] < 4294967296.
Proof.
  pose proof (byte_val_range b0). pose proof (byte_val_range b1).
  pose proof (byte_val_range b2). pose proof (byte_val_range b3).
  unfold be_decode. simpl. lia.
Qed.

Lemma be_decode4_inj (a0 a1 a2 a3 b0 b1 b2 b3 : byte) :
  be_decode [a0; a1; a2; a3] = be_decode [b0; b1; b2; b3] ->
  [a0; a1; a2; a3] = [b0; b1; b2; b3].
Proof.
  pose proof (byte_val_range a0). pose proof (byte_val_range a1).
  pose proof (byte_val_range a2). pose proof (byte_val_range a3).
  pose proof (byte_val_range b0). pose proof (byte_val_range b1).
  pose proof (byte_val_range b2). pose proof (byte_val_range b3).
  unfold be_decode. simpl. intros E.
  assert (byte_val a0 = byte_val b0) by lia.
  assert (byte_val a1 = byte_val b1) by lia.
  assert (byte_val a2 = byte_val b2) by lia.
  assert (byte_val a3 = byte_val b3) by lia.
  f_equal; [|f_equal; [|f_equal; [|f_equal]]]; apply byte_val_inj; assumption.
Qed.

(** X4. [Netaddr] undoes [NewIP4]: on any four bytes [NewIP4] returns a
    32-bit address whose octets, as [Netaddr] gives them, are those
    four bytes in order. *)
Theorem Netaddr_NewIP4 (b0 b1 b2 b3 : byte) :
  exists ip,
    NewIP4 (whole [b0; b1; b2; b3]) [b0; b1; b2; b3] = Some (ip, [b0; b1; b2; b3]) /\
    0 <= ip < 4294967296 /\
    Netaddr ip = (b0, b1, b2, b3).
Proof.
  exists (be_decode [b0; b1; b2; b3]).
  split; [apply NewIP4_four|]. split; [apply be_decode_range4|].
  pose proof (be_decode_be32 _ (be_decode_range4 b0 b1 b2 b3)) as E.
  unfold be32 in E. apply be_decode4_inj in E.
  unfold Netaddr. injection E as -> -> -> ->. reflexivity.
Qed.

(** X5. An IPv4-mapped sixteen-byte value converts to the address of
    its last four bytes, the one [NewIP4] gives for those bytes alone. *)
Theorem NewIP4_v4InV6 (b0 b1 b2 b3 : byte) :
  NewIP4 (whole (v4InV6Prefix ++ [b0; b1; b2; b3])) (v4InV6Prefix ++ [b0; b1; b2; b3])
  = Some (be_decode [b0; b1; b2; b3], v4InV6Prefix ++ [b0; b1; b2; b3]) /\
  NewIP4 (whole [b0; b1; b2; b3]) [b0; b1; b2; b3]
  = Some (be_decode [b0; b1; b2; b3], [b0; b1; b2; b3]).
Proof.
  split; [|apply NewIP4_four].
  rewrite <- get32_value. reflexivity.
Qed.

(** ** Text forms *)

Lemma decimal_inj (a b : byte) : decimal a = decimal b -> a = b.
Proof.
  unfold decimal. intros E.
  apply (f_equal NilEmpty.uint_of_string) in E.
  rewrite !NilEmpty.usu in E. injection E as E.
  apply DecimalN.Unsigned.to_uint_inj in E.
  apply (f_equal Byte.of_N) in E. rewrite !Byte.of_to_N in E.
  congruence.
Qed.

Lemma dotless_digits (d : Decimal.uint) : dotless (NilEmpty.string_of_uint d) = true.
Proof. induction d; simpl; try rewrite IHd; reflexivity. Qed.

Lemma dotless_decimal (b : byte) : dotless (decimal b) = true.
Proof. apply dotless_digits. Qed.

(** Two dotted texts whose first fields hold no full stop agree field
    by field. *)
Lemma dotted_split (s1 s2 r1 r2 : string) :
  dotless s1 = true -> dotless s2 = true ->
  (s1 ++ "." ++ r1)%string = (s2 ++ "." ++ r2)%string ->
  s1 = s2 /\ r1 = r2.
Proof.
  revert s2. induction s1 as [|c s1 IH]; intros [|c2 s2] H1 H2 E; simpl in *.
  - injection E as E. split; [reflexivity | exact E].
  - injection E as Ec E. subst c2. discriminate H2.
  - injection E as Ec E. subst c. discriminate H1.
  - injection E as Ec E. subst c2.
    apply andb_true_iff in H1 as [_ H1]. apply andb_true_iff in H2 as [_ H2].
    destruct (IH s2 H1 H2 E) as [-> ->]. split; reflexivity.
Qed.

(** X6. [IP4.String] tells 32-bit addresses apart: two of them with
    the same dotted-decimal text are the same address. *)
Theorem IP4_String_inj (ip1 ip2 : IP4) :
  0 <= ip1 < 4294967296 -> 0 <= ip2 < 4294967296 ->
  IP4_String ip1 = IP4_String ip2 -> ip1 = ip2.
Proof.
  intros H1 H2 E. unfold IP4_String in E.
  apply dotted_split in E as [Ea E]; [|apply dotless_decimal..].
  apply dotted_split in E as [Eb E]; [|apply dotless_decimal..].
  apply dotted_split in E as [Ec Ed]; [|apply dotless_decimal..].
  apply decimal_inj in Ea, Eb, Ec, Ed.
  rewrite <- (be_decode_be32 ip1 H1), <- (be_decode_be32 ip2 H2).
  unfold be32. rewrite Ea, Eb, Ec, Ed. reflexivity.
Qed.

(** X7. [IP4Proto.String] names four protocols, Fragment, ICMP, UDP
    and TCP, each by a name of its own, and gives "Unknown" for every
    other value, the declared IGMP and ICMPv6 among them. *)
Theorem IP4Proto_String_names (p : IP4Proto) :
  (IP4Proto_String p = "Unknown"%string <->
   p <> Fragment /\ p <> ICMP /\ p <> UDP /\ p <> TCP) /\
  IP4Proto_String IGMP = "Unknown"%string /\
  IP4Proto_String ICMPv6 = "Unknown"%string /\
  (forall q, IP4Proto_String p = IP4Proto_String q ->
             IP4Proto_String p <> "Unknown"%string -> p = q).
Proof.
  unfold IP4Proto_String, Fragment, ICMP, UDP, TCP.
  split; [|split; [reflexivity|split; [reflexivity|]]].
  - destruct (Z.eqb_spec p 255); [split; [discriminate | lia]|].
    destruct (Z.eqb_spec p 1); [split; [discriminate | lia]|].
    destruct (Z.eqb_spec p 17); [split; [discriminate | lia]|].
    destruct (Z.eqb_spec p 6); [split; [discriminate | lia]|].
    split; [intros _; lia | reflexivity].
  - intros q.
    destruct (Z.eqb_spec p 255); destruct (Z.eqb_spec q 255);
      try destruct (Z.eqb_spec p 1); try destruct (Z.eqb_spec q 1);
      try destruct (Z.eqb_spec p 17); try destruct (Z.eqb_spec q 17);
      try destruct (Z.eqb_spec p 6); try destruct (Z.eqb_spec q 6);
      intros E Hn; try discriminate E; try congruence.
Qed.

(** X8. [ICMP4Type.String] names the four declared types, each by a
    name of its own, and gives "Unknown" for every other value. *)
Theorem ICMP4Type_String_names (t : ICMP4Type) :
  (ICMP4Type_String t = "Unknown"%string <->
   t <> ICMP4EchoReply /\ t <> ICMP4EchoRequest /\
   t <> ICMP4Unreachable /\ t <> ICMP4TimeExceeded) /\
  (forall u, ICMP4Type_String t = ICMP4Type_String u ->
             ICMP4Type_String t <> "Unknown"%string -> t = u).
Proof.
  unfold ICMP4Type_String, ICMP4EchoReply, ICMP4EchoRequest,
    ICMP4Unreachable, ICMP4TimeExceeded.
  split.
  - destruct (Z.eqb_spec t 0); [split; [discriminate | lia]|].
    destruct (Z.eqb_spec t 8); [split; [discriminate | lia]|].
    destruct (Z.eqb_spec t 3); [split; [discriminate | lia]|].
    destruct (Z.eqb_spec t 11); [split; [discriminate | lia]|].
    split; [intros _; lia | reflexivity].
  - intros u.
    destruct (Z.eqb_spec t 0); destruct (Z.eqb_spec u 0);
      try destruct (Z.eqb_spec t 8); try destruct (Z.eqb_spec u 8);
      try destruct (Z.eqb_spec t 3); try destruct (Z.eqb_spec u 3);
      try destruct (Z.eqb_spec t 11); try destruct (Z.eqb_spec u 11);
      intros E Hn; try discriminate E; try congruence.
Qed.

(** ** Marshalling, further *)

Lemma length_ip4_wire (h : IP4Header) (n ck : Z) : length (ip4_wire h n ck) = 20%nat.
Proof. reflexivity. Qed.

Lemma wordSum_app_even (a b : list byte) (k : nat) :
  length a = (2 * k)%nat -> wordSum (a ++ b) = wordSum a + wordSum b.
Proof.
  revert a. induction k as [|k IH]; intros a Hl.
  - destruct a; [simpl; lia | discriminate Hl].
  - destruct a as [|x [|y a]]; try (simpl in Hl; lia).
    change (wordSum ((x :: y :: a) ++ b))
      with (byte_val x * 256 + byte_val y + wordSum (a ++ b)).
    change (wordSum (x :: y :: a)) with (byte_val x * 256 + byte_val y + wordSum a).
    rewrite IH by (simpl in Hl; lia). lia.
Qed.

Lemma wordSum_zeros (n : nat) : wordSum (replicate n x00) = 0.
Proof.
  enough (wordSum (replicate n x00) = 0 /\ wordSum (replicate (S n) x00) = 0) by tauto.
  induction n as [|n [IH1 IH2]]; split; try reflexivity; assumption.
Qed.

(** Adding to a sum the complement of its folded value gives a sum that
    folds to 0xffff. *)
Lemma folded_complement (s : Z) : 0 <= s -> folded (s + (65535 - folded s)) = 65535.
Proof.
  intros Hs. unfold folded.
  destruct (Z.eqb_spec s 0) as [->|Hne]; [reflexivity|].
  pose proof (Z.div_mod (s - 1) 65535 ltac:(lia)) as Hdm.
  pose proof (Z.mod_pos_bound (s - 1) 65535 ltac:(lia)) as Hr.
  destruct (Z.eqb_spec (s + (65535 - ((s - 1) mod 65535 + 1))) 0); [lia|].
  replace (s + (65535 - ((s - 1) mod 65535 + 1)) - 1)
    with (65534 + ((s - 1) / 65535) * 65535) by lia.
  rewrite Z.mod_add by lia. reflexivity.
Qed.

Lemma folded_rest (a b : Z) :
  0 <= a -> 0 < b -> folded a = 65535 -> folded (a + b) = 65535 -> folded b = 65535.
Proof.
  unfold folded. intros Ha Hb Fa Fab.
  destruct (Z.eqb_spec a 0); [lia|]. destruct (Z.eqb_spec (a + b) 0); [lia|].
  destruct (Z.eqb_spec b 0); [lia|].
  pose proof (Z.div_mod (a - 1) 65535 ltac:(lia)).
  pose proof (Z.div_mod (a + b - 1) 65535 ltac:(lia)).
  replace (b - 1)
    with (65534 + ((a + b - 1) / 65535 - (a - 1) / 65535 - 1) * 65535) by lia.
  rewrite Z.mod_add by lia. reflexivity.
Qed.

Lemma folded_ip4_wire (h : IP4Header) (n : Z) :
  folded (wordSum (ip4_wire h n (ipChecksum (ip4_wire h n 0)))) = 65535.
Proof.
  pose proof (ipChecksum_ip4_wire h n) as E.
  pose proof (wordSum_ip4_wire_pos h n (ipChecksum (ip4_wire h n 0))).
  rewrite ipChecksum_folded in E by lia. lia.
Qed.

Lemma length_icmp_head (h : ICMP4Header) (m : mem) : length (icmp_head h m) = 22%nat.
Proof. reflexivity. Qed.

Lemma icmp_summed_head (h : ICMP4Header) (m : mem) :
  icmp_summed h m = icmp_head h m ++ drop 22 m.
Proof. unfold icmp_summed, icmp_head. cbv zeta. rewrite <- app_assoc. reflexivity. Qed.

Lemma drop_22_split (m : mem) :
  drop 22 m = take 2 (drop 22 m) ++ drop 24 m.
Proof.
  rewrite <- (take_drop 2 (drop 22 m)) at 1. rewrite drop_drop. reflexivity.
Qed.

Section MarshalMore.

Variable maxPacketLength : Z.

(** X9. None of the three marshal operations ever changes the length
    of the buffer, whether it succeeds or returns an error. *)
Theorem Marshal_preserves_length (h : IP4Header) (ih : ICMP4Header) (m : mem) :
  (exists e m', IP4Header_Marshal maxPacketLength h (whole m) m = Some (e, m') /\
                length m' = length m) /\
  (exists e m', IP4Header_MarshalPseudo maxPacketLength h (whole m) m = Some (e, m') /\
                length m' = length m) /\
  (exists e m', ICMP4Header_Marshal maxPacketLength ih (whole m) m = Some (e, m') /\
                length m' = length m).
Proof.
  split; [|split].
  - destruct (Z_lt_ge_dec (Z.of_nat (length m)) 20) as [Hs|Hs];
      [|destruct (Z_gt_le_dec (Z.of_nat (length m)) maxPacketLength) as [Hl|Hl]].
    + eexists _, _. split; [apply IP4Header_Marshal_small; lia | reflexivity].
    + eexists _, _. split; [apply IP4Header_Marshal_large; lia | reflexivity].
    + eexists _, _. split; [apply IP4Header_Marshal_run; lia|].
      rewrite length_app, length_drop, length_ip4_wire. lia.
  - destruct (Z_lt_ge_dec (Z.of_nat (length m)) 20) as [Hs|Hs];
      [|destruct (Z_gt_le_dec (Z.of_nat (length m)) maxPacketLength) as [Hl|Hl]].
    + eexists _, _. split; [apply IP4Header_MarshalPseudo_small; lia | reflexivity].
    + eexists _, _. split; [apply IP4Header_MarshalPseudo_large; lia | reflexivity].
    + eexists _, _. split; [apply IP4Header_MarshalPseudo_run; lia|].
      rewrite !length_app, length_take, length_drop.
      unfold be32, be16. cbn [length]. lia.
  - destruct (Z_lt_ge_dec (Z.of_nat (length m)) 24) as [Hs|Hs];
      [|destruct (Z_gt_le_dec (Z.of_nat (length m)) maxPacketLength) as [Hl|Hl]].
    + eexists _, _. split;
        [apply ICMP4Header_Marshal_of_body, ICMP4Header_Marshal_body_small; lia
        | reflexivity].
    + eexists _, _. split;
        [apply ICMP4Header_Marshal_of_body, ICMP4Header_Marshal_body_large; lia
        | reflexivity].
    + eexists _, _. split; [apply ICMP4Header_Marshal_run; lia|].
      rewrite !length_app, length_take, length_drop, length_icmp_summed by lia.
      unfold be16. cbn [length]. lia.
Qed.

(** What [IP4Header.Marshal] leaves depends on the buffer only through
    its length and its bytes from 20 on. *)
Lemma IP4Header_Marshal_ext (h : IP4Header) (m1 m2 : mem) :
  20 <= Z.of_nat (length m1) <= maxPacketLength ->
  length m1 = length m2 -> drop 20 m1 = drop 20 m2 ->
  IP4Header_Marshal maxPacketLength h (whole m1) m1
  = IP4Header_Marshal maxPacketLength h (whole m2) m2.
Proof.
  intros H Hl Hd.
  rewrite !IP4Header_Marshal_run by lia. rewrite Hl, Hd. reflexivity.
Qed.

(** X10. [IP4Header.Marshal] is idempotent: marshalling the same header
    again into the buffer it has just filled changes nothing. *)
Theorem IP4Header_Marshal_idempotent (h : IP4Header) (m : mem) :
  20 <= Z.of_nat (length m) <= maxPacketLength ->
  exists m',
    IP4Header_Marshal maxPacketLength h (whole m) m = Some (None, m') /\
    IP4Header_Marshal maxPacketLength h (whole m') m' = Some (None, m').
Proof.
  intros H. eexists. split; [apply IP4Header_Marshal_run; exact H|].
  set (m' := _ ++ drop 20 m).
  assert (Hl : length m' = length m)
    by (unfold m'; rewrite length_app, length_drop, length_ip4_wire; lia).
  assert (Hd : drop 20 m' = drop 20 m)
    by (unfold m'; apply drop_app_length'; reflexivity).
  rewrite (IP4Header_Marshal_ext h m' m) by (try rewrite Hl; auto).
  apply IP4Header_Marshal_run. exact H.
Qed.

(** X11. A pseudo-header leaves no trace in the header proper:
    [IP4Header.Marshal] after [IP4Header.MarshalPseudo] (of any header)
    on the same buffer gives what [IP4Header.Marshal] alone gives. *)
Theorem IP4Header_Marshal_after_MarshalPseudo (h hp : IP4Header) (m : mem) :
  20 <= Z.of_nat (length m) <= maxPacketLength ->
  exists mp,
    IP4Header_MarshalPseudo maxPacketLength hp (whole m) m = Some (None, mp) /\
    IP4Header_Marshal maxPacketLength h (whole mp) mp
    = IP4Header_Marshal maxPacketLength h (whole m) m.
Proof.
  intros H. eexists. split; [apply IP4Header_MarshalPseudo_run; exact H|].
  set (mp := take 8 m ++ _).
  assert (Hl : length mp = length m).
  { unfold mp. rewrite !length_app, length_take, length_drop.
    unfold be32, be16. cbn [length]. lia. }
  assert (Hd : drop 20 mp = drop 20 m).
  { unfold mp.
    rewrite (app_assoc (take 8 m)), (app_assoc (take 8 m ++ _)),
      (app_assoc ((take 8 m ++ _) ++ _)), (app_assoc (((take 8 m ++ _) ++ _) ++ _)).
    apply drop_app_length'. rewrite !length_app, length_take.
    unfold be32, be16. cbn [length]. lia. }
  apply IP4Header_Marshal_ext; [rewrite Hl; exact H | exact Hl | exact Hd].
Qed.

(** X12. With a maximum that fits sixteen bits the total-length field,
    bytes 2 and 3, reads back as the length of the buffer. *)
Theorem IP4Header_Marshal_total_length (h : IP4Header) (m : mem) :
  20 <= Z.of_nat (length m) <= maxPacketLength ->
  maxPacketLength <= 65535 ->
  exists m',
    IP4Header_Marshal maxPacketLength h (whole m) m = Some (None, m') /\
    be_decode (take 2 (drop 2 m')) = Z.of_nat (length m).
Proof.
  intros H Hmax. eexists. split; [apply IP4Header_Marshal_run; exact H|].
  change (take 2 (drop 2 (ip4_wire h ?n ?ck ++ ?r))) with (be16 n).
  rewrite be16_uint16. apply be_decode_be16. lia.
Qed.

Lemma be16_inj (a b : Z) :
  0 <= a < 65536 -> 0 <= b < 65536 -> be16 a = be16 b -> a = b.
Proof.
  intros Ha Hb E. rewrite <- (be_decode_be16 a Ha), <- (be_decode_be16 b Hb), E.
  reflexivity.
Qed.

Lemma be32_inj (a b : Z) :
  0 <= a < 4294967296 -> 0 <= b < 4294967296 -> be32 a = be32 b -> a = b.
Proof.
  intros Ha Hb E. rewrite <- (be_decode_be32 a Ha), <- (be_decode_be32 b Hb), E.
  reflexivity.
Qed.

(** X13. The marshalled header determines the header: two headers
    whose fields fit their types and that leave the same first twenty
    bytes are equal. *)
Theorem IP4Header_Marshal_injective (h1 h2 : IP4Header) (m1 m2 : mem) :
  wf_IP4Header h1 -> wf_IP4Header h2 ->
  20 <= Z.of_nat (length m1) <= maxPacketLength ->
  20 <= Z.of_nat (length m2) <= maxPacketLength ->
  exists m1' m2',
    IP4Header_Marshal maxPacketLength h1 (whole m1) m1 = Some (None, m1') /\
    IP4Header_Marshal maxPacketLength h2 (whole m2) m2 = Some (None, m2') /\
    (take 20 m1' = take 20 m2' -> h1 = h2).
Proof.
  intros (Hp1&Hi1&Hs1&Hd1) (Hp2&Hi2&Hs2&Hd2) H1 H2.
  eexists _, _. split; [apply IP4Header_Marshal_run; exact H1|].
  split; [apply IP4Header_Marshal_run; exact H2|].
  rewrite !take_app_length' by reflexivity.
  destruct h1 as [p1 i1 s1 d1], h2 as [p2 i2 s2 d2]. simpl in *.
  unfold ip4_wire. simpl IPID. simpl IPProto. simpl SrcIP. simpl DstIP.
  intros E.
  assert (Ei : be16 i1 = be16 i2) by (unfold be16 in *; simpl in E; congruence).
  assert (Es : be32 s1 = be32 s2) by (unfold be16, be32 in *; simpl in E; congruence).
  assert (Ed : be32 d1 = be32 d2) by (unfold be16, be32 in *; simpl in E; congruence).
  assert (Ep : uint8 p1 = uint8 p2) by (unfold be16 in *; simpl in E; congruence).
  apply be16_inj in Ei; [|lia..]. apply be32_inj in Es; [|lia..].
  apply be32_inj in Ed; [|lia..].
  apply (f_equal byte_val) in Ep. rewrite !byte_val_uint8, !Z.mod_small in Ep by lia.
  congruence.
Qed.

Lemma ICMP4Header_Marshal_flat (h : ICMP4Header) (m : mem) :
  24 <= Z.of_nat (length m) <= maxPacketLength ->
  ICMP4Header_Marshal maxPacketLength h (whole m) m =
    Some (None,
          icmp_head h m
          ++ be16 (ipChecksum (icmp_head h m ++ take 2 (drop 22 m) ++ drop 24 m))
          ++ drop 24 m).
Proof.
  intros H. rewrite ICMP4Header_Marshal_run by exact H.
  rewrite icmp_summed_head.
  rewrite take_app_length' by reflexivity.
  rewrite <- drop_22_split. reflexivity.
Qed.

(** X14. A successful [ICMP4Header.Marshal] leaves in bytes 0 to 19
    what [IP4Header.Marshal] leaves for the embedded header with the
    protocol set to ICMP, in byte 20 the type and in byte 21 the code,
    and does not touch the bytes from 24 on. *)
Theorem ICMP4Header_Marshal_layout (h : ICMP4Header) (m : mem) :
  24 <= Z.of_nat (length m) <= maxPacketLength ->
  exists m' mi,
    ICMP4Header_Marshal maxPacketLength h (whole m) m = Some (None, m') /\
    IP4Header_Marshal maxPacketLength
      {| IPProto := ICMP; IPID := h.(IP4Hdr).(IPID);
         SrcIP := h.(IP4Hdr).(SrcIP); DstIP := h.(IP4Hdr).(DstIP) |}
      (whole m) m = Some (None, mi) /\
    take 20 m' = take 20 mi /\
    m' !! 20%nat = Some (uint8 h.(Type_)) /\
    m' !! 21%nat = Some (uint8 h.(Code)) /\
    drop 24 m' = drop 24 m.
Proof.
  intros H. eexists _, _.
  split; [apply ICMP4Header_Marshal_flat; exact H|].
  split; [apply IP4Header_Marshal_run; lia|].
  split; [|split; [|split]].
  - rewrite (take_app_length' (ip4_wire _ _ _)) by reflexivity.
    unfold icmp_head. cbv zeta. rewrite <- app_assoc.
    rewrite take_app_length' by reflexivity. reflexivity.
  - reflexivity.
  - reflexivity.
  - rewrite app_assoc. apply drop_app_length'. reflexivity.
Qed.

(** With bytes 22 and 23 zero on entry and no overflow of the 32-bit
    accumulator, the checksum placed in them makes the whole buffer sum
    to a checksum of 0. *)
Lemma icmp_blank_validates (A R : list byte) :
  length A = 22%nat -> Z.of_nat (length R) + 24 <= 65535 ->
  ipChecksum (A ++ be16 (ipChecksum (A ++ [x00; x00] ++ R)) ++ R) = 0.
Proof.
  intros HA HR.
  set (S := A ++ [x00; x00] ++ R).
  assert (HS : wordSum S = wordSum A + wordSum R).
  { unfold S. rewrite (wordSum_app_even A _ 11) by exact HA.
    rewrite (wordSum_app_even [x00; x00] _ 1) by reflexivity. reflexivity. }
  assert (HSb : 0 <= wordSum S < 4294967296).
  { split; [apply wordSum_nonneg|].
    eapply Z.le_lt_trans; [apply wordSum_bound|].
    unfold S. rewrite !length_app, HA. change (length [x00; x00]) with 2%nat. lia. }
  assert (Hck : ipChecksum S = 65535 - folded (wordSum S))
    by (apply ipChecksum_folded; lia).
  assert (Hm' : wordSum (A ++ be16 (ipChecksum S) ++ R) = wordSum S + ipChecksum S).
  { rewrite (wordSum_app_even A _ 11) by exact HA.
    rewrite (wordSum_app_even (be16 _) _ 1) by reflexivity.
    rewrite wordSum_be16 by apply ipChecksum_range. lia. }
  rewrite ipChecksum_folded.
  - rewrite Hm', Hck. rewrite folded_complement by lia. reflexivity.
  - eapply Z.le_lt_trans; [apply wordSum_bound|].
    rewrite !length_app, HA. change (length (be16 _)) with 2%nat. lia.
Qed.

Lemma length_drop_24 (m : mem) :
  24 <= Z.of_nat (length m) <= 65535 -> Z.of_nat (length (drop 24 m)) + 24 <= 65535.
Proof. intros H. rewrite length_drop. lia. Qed.

(** X15. When the maximum fits sixteen bits and the buffer comes with
    bytes 22 and 23 zero, the packet [ICMP4Header.Marshal] leaves sums
    to a checksum of 0 over the whole buffer. *)
Theorem ICMP4Header_Marshal_checksum_validates (h : ICMP4Header) (m : mem) :
  24 <= Z.of_nat (length m) <= maxPacketLength ->
  maxPacketLength <= 65535 ->
  take 2 (drop 22 m) = [x00; x00] ->
  exists m',
    ICMP4Header_Marshal maxPacketLength h (whole m) m = Some (None, m') /\
    ipChecksum m' = 0.
Proof.
  intros H Hmax Hblank. eexists.
  split; [apply ICMP4Header_Marshal_flat; exact H|].
  rewrite Hblank.
  apply icmp_blank_validates; [reflexivity | apply length_drop_24; lia].
Qed.

(** X16. Under the same conditions and for a type whose byte is not
    zero (an echo request, say), the ICMP message alone, bytes 20 to
    the end, also sums to a checksum of 0: the whole-buffer sum agrees
    with the sum over the ICMP message. *)
Theorem ICMP4Header_Marshal_message_validates (h : ICMP4Header) (m : mem) :
  24 <= Z.of_nat (length m) <= maxPacketLength ->
  maxPacketLength <= 65535 ->
  take 2 (drop 22 m) = [x00; x00] ->
  uint8 h.(Type_) <> x00 ->
  exists m',
    ICMP4Header_Marshal maxPacketLength h (whole m) m = Some (None, m') /\
    ipChecksum (drop 20 m') = 0.
Proof.
  intros H Hmax Hblank Hty. eexists.
  split; [apply ICMP4Header_Marshal_flat; exact H|].
  rewrite Hblank.
  pose proof (icmp_blank_validates (icmp_head h m) (drop 24 m) eq_refl
                (length_drop_24 m ltac:(lia))) as Hall.
  set (ck := ipChecksum (icmp_head h m ++ [x00; x00] ++ drop 24 m)) in *.
  set (W := ip4_wire (IP4Hdr (set_IPProto ICMP h)) (uint16 (Z.of_nat (length m)))
              (ipChecksum (ip4_wire (IP4Hdr (set_IPProto ICMP h))
                                    (uint16 (Z.of_nat (length m))) 0))).
  set (msg := [uint8 h.(Type_); uint8 h.(Code)] ++ be16 ck ++ drop 24 m).
  assert (Hres : icmp_head h m ++ be16 ck ++ drop 24 m = W ++ msg)
    by (unfold icmp_head, msg, W; cbv zeta; rewrite <- app_assoc; reflexivity).
  rewrite Hres in *.
  rewrite drop_app_length' by reflexivity.
  assert (Hlen : Z.of_nat (length (W ++ msg)) <= 65535).
  { rewrite length_app. unfold msg. rewrite !length_app, length_drop.
    change (length W) with 20%nat. change (length (be16 ck)) with 2%nat.
    cbn [length]. lia. }
  assert (Hb : wordSum (W ++ msg) < 4294967296).
  { eapply Z.le_lt_trans; [apply wordSum_bound|]. lia. }
  assert (Hsplit : wordSum (W ++ msg) = wordSum W + wordSum msg)
    by (apply (wordSum_app_even W msg 10); reflexivity).
  rewrite ipChecksum_folded in Hall by exact Hb.
  pose proof (folded_range (wordSum (W ++ msg))).
  assert (Hpos : 0 < wordSum msg).
  { unfold msg.
    change (wordSum ([uint8 (Type_ h); uint8 (Code h)] ++ be16 ck ++ drop 24 m))
      with (byte_val (uint8 (Type_ h)) * 256 + byte_val (uint8 (Code h))
            + wordSum (be16 ck ++ drop 24 m)).
    pose proof (wordSum_nonneg (be16 ck ++ drop 24 m)).
    pose proof (byte_val_range (uint8 (Type_ h))).
    pose proof (byte_val_range (uint8 (Code h))).
    assert (byte_val (uint8 (Type_ h)) <> 0).
    { intros E. apply Hty. apply byte_val_inj. rewrite E. reflexivity. }
    lia. }
  pose proof (wordSum_nonneg W). pose proof (wordSum_nonneg msg).
  rewrite ipChecksum_folded by lia.
  rewrite (folded_rest (wordSum W) (wordSum msg)); try lia.
  - apply folded_ip4_wire.
  - rewrite <- Hsplit. lia.
Qed.

(** X17. The edge the whole-buffer sum leaves: for type byte 0 and
    code byte 0 (an echo reply) marshalled into a buffer that is zero
    from byte 22 on, the checksum written is 0x0000 and the ICMP
    message alone does not sum to a checksum of 0 but to 0xffff. *)
Theorem ICMP4Header_Marshal_zero_reply (h : ICMP4Header) (m : mem) :
  24 <= Z.of_nat (length m) <= maxPacketLength ->
  maxPacketLength <= 65535 ->
  drop 22 m = replicate (length m - 22) x00 ->
  uint8 h.(Type_) = x00 -> uint8 h.(Code) = x00 ->
  exists m',
    ICMP4Header_Marshal maxPacketLength h (whole m) m = Some (None, m') /\
    take 2 (drop 22 m') = [x00; x00] /\
    ipChecksum (drop 20 m') = 65535.
Proof.
  intros H Hmax Hz Hty Hco. eexists.
  split; [apply ICMP4Header_Marshal_flat; exact H|].
  assert (Hd24 : drop 24 m = replicate (length m - 24) x00).
  { replace (drop 24 m) with (drop 2 (drop 22 m)) by (rewrite drop_drop; reflexivity).
    rewrite Hz, drop_replicate. f_equal. lia. }
  assert (Hblank : take 2 (drop 22 m) = [x00; x00]).
  { rewrite Hz. replace (length m - 22)%nat with (S (S (length m - 24))) by lia.
    reflexivity. }
  rewrite Hblank, Hd24.
  set (R := replicate (length m - 24) x00).
  set (W := ip4_wire (IP4Hdr (set_IPProto ICMP h)) (uint16 (Z.of_nat (length m)))
              (ipChecksum (ip4_wire (IP4Hdr (set_IPProto ICMP h))
                                    (uint16 (Z.of_nat (length m))) 0))).
  assert (HA : icmp_head h m = W ++ [x00; x00])
    by (unfold icmp_head, W; cbv zeta; rewrite Hty, Hco; reflexivity).
  rewrite HA.
  assert (HR : wordSum R = 0) by apply wordSum_zeros.
  assert (HlenR : Z.of_nat (length R) + 24 <= 65535)
    by (unfold R; rewrite length_replicate; lia).
  assert (Hck : ipChecksum ((W ++ [x00; x00]) ++ [x00; x00] ++ R) = 0).
  { rewrite ipChecksum_folded.
    - rewrite (wordSum_app_even (W ++ [x00; x00]) _ 11) by reflexivity.
      rewrite (wordSum_app_even W [x00; x00] 10) by reflexivity.
      rewrite (wordSum_app_even [x00; x00] R 1) by reflexivity.
      rewrite HR. change (wordSum [x00; x00]) with 0. rewrite !Z.add_0_r.
      unfold W. rewrite folded_ip4_wire. reflexivity.
    - eapply Z.le_lt_trans; [apply wordSum_bound|].
      rewrite !length_app. change (length W) with 20%nat. cbn [length]. lia. }
  rewrite Hck. change (be16 0) with [x00; x00].
  split.
  - rewrite (drop_app_length' _ _ 22) by reflexivity. reflexivity.
  - rewrite <- app_assoc. rewrite (drop_app_length' W _ 20) by reflexivity.
    rewrite ipChecksum_folded.
    + rewrite (wordSum_app_even [x00; x00] _ 1) by reflexivity.
      rewrite (wordSum_app_even [x00; x00] R 1) by reflexivity.
      rewrite HR. reflexivity.
    + eapply Z.le_lt_trans; [apply wordSum_bound|].
      rewrite !length_app. cbn [length]. lia.
Qed.

(** X18. A second [ICMP4Header.Marshal] of the same header into the
    buffer the first call filled (bytes 22 and 23 zero on entry, a
    maximum that fits sixteen bits) keeps every byte outside the
    checksum field and writes 0x0000 into that field.  So the second
    call gives the buffer of the first exactly when the first checksum
    was itself 0x0000, and a different buffer otherwise. *)
Theorem ICMP4Header_Marshal_twice (h : ICMP4Header) (m : mem) :
  24 <= Z.of_nat (length m) <= maxPacketLength ->
  maxPacketLength <= 65535 ->
  take 2 (drop 22 m) = [x00; x00] ->
  exists m' m'',
    ICMP4Header_Marshal maxPacketLength h (whole m) m = Some (None, m') /\
    ICMP4Header_Marshal maxPacketLength h (whole m') m' = Some (None, m'') /\
    take 22 m'' = take 22 m' /\
    take 2 (drop 22 m'') = [x00; x00] /\
    drop 24 m'' = drop 24 m' /\
    (m'' = m' <-> take 2 (drop 22 m') = [x00; x00]) /\
    (take 2 (drop 22 m') <> [x00; x00] -> m'' <> m').
Proof.
  intros H Hmax Hblank.
  set (ck := ipChecksum (icmp_head h m ++ [x00; x00] ++ drop 24 m)).
  set (m' := icmp_head h m ++ be16 ck ++ drop 24 m).
  assert (Hfirst : ICMP4Header_Marshal maxPacketLength h (whole m) m = Some (None, m'))
    by (rewrite ICMP4Header_Marshal_flat by exact H; rewrite Hblank; reflexivity).
  assert (Hl : length m' = length m).
  { unfold m'. rewrite !length_app, length_drop, length_icmp_head.
    change (length (be16 ck)) with 2%nat. lia. }
  assert (Hhead : icmp_head h m' = icmp_head h m)
    by (unfold icmp_head; rewrite Hl; reflexivity).
  assert (Ht22 : take 22 m' = icmp_head h m)
    by (unfold m'; apply take_app_length'; reflexivity).
  assert (Hd22 : drop 22 m' = be16 ck ++ drop 24 m)
    by (unfold m'; apply drop_app_length'; reflexivity).
  assert (Hd24 : drop 24 m' = drop 24 m).
  { unfold m'. rewrite app_assoc. apply drop_app_length'.
    rewrite length_app, length_icmp_head. reflexivity. }
  assert (Hv : ipChecksum m' = 0).
  { unfold m', ck. apply icmp_blank_validates;
      [reflexivity | apply length_drop_24; lia]. }
  assert (Hsecond : ICMP4Header_Marshal maxPacketLength h (whole m') m'
                    = Some (None, icmp_head h m ++ [x00; x00] ++ drop 24 m)).
  { rewrite ICMP4Header_Marshal_flat by (rewrite Hl; exact H).
    rewrite Hhead, Hd22, Hd24.
    change (take 2 (be16 ck ++ drop 24 m)) with (be16 ck).
    fold m'. rewrite Hv. reflexivity. }
  assert (Hck2 : take 2 (drop 22 m') = be16 ck) by (rewrite Hd22; reflexivity).
  assert (Hiff : icmp_head h m ++ [x00; x00] ++ drop 24 m = m' <->
                 take 2 (drop 22 m') = [x00; x00]).
  { rewrite Hck2. unfold m'. split.
    - intros E. apply app_inv_head in E.
      apply (f_equal (take 2)) in E. symmetry. exact E.
    - intros E. rewrite E. reflexivity. }
  exists m', (icmp_head h m ++ [x00; x00] ++ drop 24 m).
  split; [exact Hfirst|]. split; [exact Hsecond|].
  split; [rewrite Ht22; apply take_app_length'; reflexivity|].
  split; [rewrite (drop_app_length' _ _ 22) by reflexivity; reflexivity|].
  split.
  { rewrite Hd24. rewrite app_assoc. apply drop_app_length'.
    rewrite length_app, length_icmp_head. reflexivity. }
  split; [exact Hiff|].
  intros Hne E. apply Hne. apply Hiff. exact E.
Qed.

(** X19. The response is marshalled with the addresses the other way
    round: bytes 12 to 15 of the marshalled response are bytes 16 to 19
    of the marshalled request and conversely, and the protocol byte is
    the same. *)
Theorem IP4Header_Marshal_ToResponse (h : IP4Header) (m1 m2 : mem) :
  20 <= Z.of_nat (length m1) <= maxPacketLength ->
  20 <= Z.of_nat (length m2) <= maxPacketLength ->
  exists m1' m2',
    IP4Header_Marshal maxPacketLength h (whole m1) m1 = Some (None, m1') /\
    IP4Header_Marshal maxPacketLength (IP4Header_ToResponse h) (whole m2) m2
      = Some (None, m2') /\
    take 4 (drop 12 m2') = take 4 (drop 16 m1') /\
    take 4 (drop 16 m2') = take 4 (drop 12 m1') /\
    m2' !! 9%nat = m1' !! 9%nat.
Proof.
  intros H1 H2. eexists _, _.
  split; [apply IP4Header_Marshal_run; exact H1|].
  split; [apply IP4Header_Marshal_run; exact H2|].
  repeat split; reflexivity.
Qed.

(** X20. With a maximum that fits sixteen bits the length field of the
    pseudo-header, bytes 18 and 19, reads back as the length of the
    buffer less the twenty header bytes. *)
Theorem IP4Header_MarshalPseudo_length (h : IP4Header) (m : mem) :
  20 <= Z.of_nat (length m) <= maxPacketLength ->
  maxPacketLength <= 65535 ->
  exists m',
    IP4Header_MarshalPseudo maxPacketLength h (whole m) m = Some (None, m') /\
    be_decode (take 2 (drop 18 m')) = Z.of_nat (length m) - 20.
Proof.
  intros H Hmax. eexists. split; [apply IP4Header_MarshalPseudo_run; exact H|].
  assert (Hl : 8%nat = length (take 8 m)) by (rewrite length_take; lia).
  replace (drop 18 (take 8 m ++ _))
    with (be16 (uint16 (Z.of_nat (length m) - 20)) ++ drop 20 m).
  - change (take 2 (be16 ?v ++ ?r)) with (be16 v).
    rewrite be16_uint16. apply be_decode_be16. lia.
  - symmetry.
    rewrite (app_assoc (take 8 m)), (app_assoc (take 8 m ++ _)),
      (app_assoc ((take 8 m ++ _) ++ _)).
    apply drop_app_length'. rewrite !length_app, <- Hl. reflexivity.
Qed.

(** X21. [Len] is the size the matching [Marshal] asks for: each of
    [IP4Header.Marshal] and [ICMP4Header.Marshal] returns [nil] exactly
    when the buffer has at least [Len()] bytes and at most the
    maximum. *)
Theorem Marshal_succeeds_iff_Len (h : IP4Header) (ih : ICMP4Header) (m : mem) :
  ((exists m', IP4Header_Marshal maxPacketLength h (whole m) m = Some (None, m')) <->
   IP4Header_Len h <= Z.of_nat (length m) <= maxPacketLength) /\
  ((exists m', ICMP4Header_Marshal maxPacketLength ih (whole m) m = Some (None, m')) <->
   ICMP4Header_Len ih <= Z.of_nat (length m) <= maxPacketLength).
Proof.
  change (IP4Header_Len h) with 20. change (ICMP4Header_Len ih) with 24.
  split.
  - destruct (Z_lt_ge_dec (Z.of_nat (length m)) 20) as [Hs|Hs];
      [|destruct (Z_gt_le_dec (Z.of_nat (length m)) maxPacketLength) as [Hl|Hl]].
    + rewrite IP4Header_Marshal_small by lia.
      split; [intros [m' E]; discriminate E | lia].
    + rewrite IP4Header_Marshal_large by lia.
      split; [intros [m' E]; discriminate E | lia].
    + rewrite IP4Header_Marshal_run by lia.
      split; [lia | intros _; eexists; reflexivity].
  - destruct (Z_lt_ge_dec (Z.of_nat (length m)) 24) as [Hs|Hs];
      [|destruct (Z_gt_le_dec (Z.of_nat (length m)) maxPacketLength) as [Hl|Hl]].
    + rewrite (ICMP4Header_Marshal_of_body _ _ _ _ _
                 (ICMP4Header_Marshal_body_small maxPacketLength ih m ltac:(lia))).
      split; [intros [m' E]; discriminate E | lia].
    + rewrite (ICMP4Header_Marshal_of_body _ _ _ _ _
                 (ICMP4Header_Marshal_body_large maxPacketLength ih m ltac:(lia) ltac:(lia))).
      split; [intros [m' E]; discriminate E | lia].
    + rewrite ICMP4Header_Marshal_run by lia.
      split; [lia | intros _; eexists; reflexivity].
Qed.

End MarshalMore.

(** ** [ToResponse], further *)

(** X22. [ICMP4Header.ToResponse] applied twice does not give the
    header back: the embedded header returns to what it was (for a
    16-bit IPID) while type and code stay EchoReply and NoCode. *)
Theorem ICMP4Header_ToResponse_twice (h : ICMP4Header) :
  0 <= h.(IP4Hdr).(IPID) < 65536 ->
  ICMP4Header_ToResponse (ICMP4Header_ToResponse h)
  = {| IP4Hdr := h.(IP4Hdr); Type_ := ICMP4EchoReply; Code := ICMP4NoCode |}.
Proof.
  intros Hid. destruct h as [[p id s d] t c]. simpl in *.
  unfold ICMP4Header_ToResponse, IP4Header_ToResponse. simpl. f_equal. f_equal.
  rewrite (uint16_lnot id Hid). rewrite uint16_lnot by lia. lia.
Qed.

(** X23. As the comment in [ToResponse] says, distinct IPIDs stay
    distinct: two headers with 16-bit IPIDs whose responses carry the
    same IPID carried the same IPID; and no response carries the IPID
    of its request. *)
Theorem IP4Header_ToResponse_IPID (h1 h2 : IP4Header) :
  0 <= h1.(IPID) < 65536 -> 0 <= h2.(IPID) < 65536 ->
  ((IP4Header_ToResponse h1).(IPID) = (IP4Header_ToResponse h2).(IPID) ->
   h1.(IPID) = h2.(IPID)) /\
  (IP4Header_ToResponse h1).(IPID) <> h1.(IPID).
Proof.
  intros H1 H2. simpl. rewrite !uint16_lnot by lia. lia.
Qed.

(** ** Instances of the further conditional theorems *)

Ltac decide_now := vm_compute; repeat split; try discriminate; reflexivity.

Lemma IsMulticast_range_witness :
  0 <= 0xe0000001 < 4294967296 /\
  (IsMulticast 0xe0000001 = true <-> 0xe0000000 <= 0xe0000001 < 0xf0000000).
Proof. split; [lia | apply (IsMulticast_range 0xe0000001); lia]. Defined.

Lemma IsLinkLocalUnicast_range_witness :
  0 <= 0xa9fe0101 < 4294967296 /\
  (IsLinkLocalUnicast 0xa9fe0101 = true <-> 0xa9fe0000 <= 0xa9fe0101 < 0xa9ff0000).
Proof. split; [lia | apply (IsLinkLocalUnicast_range 0xa9fe0101); lia]. Defined.

Lemma NewIP4_Netaddr_witness :
  0 <= 0x0a000001 < 4294967296 /\
  (let '(a, b, c, d) := Netaddr 0x0a000001 in
   NewIP4 (whole [a; b; c; d]) [a; b; c; d] = Some (0x0a000001, [a; b; c; d])).
Proof. split; [lia | apply (NewIP4_Netaddr 0x0a000001); lia]. Defined.

Lemma IP4_String_inj_witness :
  0 <= 0x0a000001 < 4294967296 /\ 0 <= 0x0a000001 < 4294967296 /\
  IP4_String 0x0a000001 = IP4_String 0x0a000001 /\
  0x0a000001 = 0x0a000001.
Proof.
  split; [lia|]. split; [lia|]. split; [reflexivity|].
  apply (IP4_String_inj 0x0a000001 0x0a000001); [lia | lia | reflexivity].
Defined.

Lemma IP4Header_Marshal_idempotent_witness :
  20 <= Z.of_nat (length (zeros 20)) <= maxUint16 /\
  exists m',
    IP4Header_Marshal maxUint16 tcp_header (whole (zeros 20)) (zeros 20)
      = Some (None, m') /\
    IP4Header_Marshal maxUint16 tcp_header (whole m') m' = Some (None, m').
Proof.
  split; [decide_now|].
  apply (IP4Header_Marshal_idempotent maxUint16 tcp_header (zeros 20)). decide_now.
Defined.

Lemma IP4Header_Marshal_after_MarshalPseudo_witness :
  20 <= Z.of_nat (length dirty_buffer) <= maxUint16 /\
  exists mp,
    IP4Header_MarshalPseudo maxUint16 tcp_header (whole dirty_buffer) dirty_buffer
      = Some (None, mp) /\
    IP4Header_Marshal maxUint16 tcp_header (whole mp) mp
    = IP4Header_Marshal maxUint16 tcp_header (whole dirty_buffer) dirty_buffer.
Proof.
  split; [decide_now|].
  apply (IP4Header_Marshal_after_MarshalPseudo maxUint16 tcp_header tcp_header
           dirty_buffer).
  decide_now.
Defined.

Lemma IP4Header_Marshal_total_length_witness :
  20 <= Z.of_nat (length (zeros 20)) <= maxUint16 /\
  maxUint16 <= 65535 /\
  exists m',
    IP4Header_Marshal maxUint16 tcp_header (whole (zeros 20)) (zeros 20)
      = Some (None, m') /\
    be_decode (take 2 (drop 2 m')) = Z.of_nat (length (zeros 20)).
Proof.
  split; [decide_now|]. split; [decide_now|].
  apply (IP4Header_Marshal_total_length maxUint16 tcp_header (zeros 20)); decide_now.
Defined.

Lemma IP4Header_Marshal_injective_witness :
  wf_IP4Header tcp_header /\ wf_IP4Header tcp_header /\
  20 <= Z.of_nat (length (zeros 20)) <= maxUint16 /\
  20 <= Z.of_nat (length dirty_buffer) <= maxUint16 /\
  exists m1' m2',
    IP4Header_Marshal maxUint16 tcp_header (whole (zeros 20)) (zeros 20)
      = Some (None, m1') /\
    IP4Header_Marshal maxUint16 tcp_header (whole dirty_buffer) dirty_buffer
      = Some (None, m2') /\
    (take 20 m1' = take 20 m2' -> tcp_header = tcp_header).
Proof.
  split; [decide_now|]. split; [decide_now|].
  split; [decide_now|]. split; [decide_now|].
  apply (IP4Header_Marshal_injective maxUint16 tcp_header tcp_header
           (zeros 20) dirty_buffer); decide_now.
Defined.

Lemma ICMP4Header_Marshal_layout_witness :
  24 <= Z.of_nat (length stale_buffer) <= maxUint16 /\
  exists m' mi,
    ICMP4Header_Marshal maxUint16 echo_request (whole stale_buffer) stale_buffer
      = Some (None, m') /\
    IP4Header_Marshal maxUint16
      {| IPProto := ICMP; IPID := echo_request.(IP4Hdr).(IPID);
         SrcIP := echo_request.(IP4Hdr).(SrcIP);
         DstIP := echo_request.(IP4Hdr).(DstIP) |}
      (whole stale_buffer) stale_buffer = Some (None, mi) /\
    take 20 m' = take 20 mi /\
    m' !! 20%nat = Some (uint8 echo_request.(Type_)) /\
    m' !! 21%nat = Some (uint8 echo_request.(Code)) /\
    drop 24 m' = drop 24 stale_buffer.
Proof.
  split; [decide_now|].
  apply (ICMP4Header_Marshal_layout maxUint16 echo_request stale_buffer). decide_now.
Defined.

Lemma ICMP4Header_Marshal_checksum_validates_witness :
  24 <= Z.of_nat (length (zeros 24)) <= maxUint16 /\
  maxUint16 <= 65535 /\
  take 2 (drop 22 (zeros 24)) = [x00; x00] /\
  exists m',
    ICMP4Header_Marshal maxUint16 echo_request (whole (zeros 24)) (zeros 24)
      = Some (None, m') /\
    ipChecksum m' = 0.
Proof.
  split; [decide_now|]. split; [decide_now|]. split; [reflexivity|].
  apply (ICMP4Header_Marshal_checksum_validates maxUint16 echo_request (zeros 24));
    decide_now.
Defined.

Lemma ICMP4Header_Marshal_message_validates_witness :
  24 <= Z.of_nat (length (zeros 24)) <= maxUint16 /\
  maxUint16 <= 65535 /\
  take 2 (drop 22 (zeros 24)) = [x00; x00] /\
  uint8 echo_request.(Type_) <> x00 /\
  exists m',
    ICMP4Header_Marshal maxUint16 echo_request (whole (zeros 24)) (zeros 24)
      = Some (None, m') /\
    ipChecksum (drop 20 m') = 0.
Proof.
  split; [decide_now|]. split; [decide_now|]. split; [reflexivity|].
  split; [vm_compute; discriminate|].
  apply (ICMP4Header_Marshal_message_validates maxUint16 echo_request (zeros 24));
    decide_now.
Defined.

Lemma ICMP4Header_Marshal_zero_reply_witness :
  24 <= Z.of_nat (length (zeros 24)) <= maxUint16 /\
  maxUint16 <= 65535 /\
  drop 22 (zeros 24) = replicate (length (zeros 24) - 22) x00 /\
  uint8 echo_reply.(Type_) = x00 /\ uint8 echo_reply.(Code) = x00 /\
  exists m',
    ICMP4Header_Marshal maxUint16 echo_reply (whole (zeros 24)) (zeros 24)
      = Some (None, m') /\
    take 2 (drop 22 m') = [x00; x00] /\
    ipChecksum (drop 20 m') = 65535.
Proof.
  split; [decide_now|]. split; [decide_now|]. split; [reflexivity|].
  split; [reflexivity|]. split; [reflexivity|].
  apply (ICMP4Header_Marshal_zero_reply maxUint16 echo_reply (zeros 24)); decide_now.
Defined.

Lemma ICMP4Header_Marshal_twice_witness :
  24 <= Z.of_nat (length (zeros 24)) <= maxUint16 /\
  maxUint16 <= 65535 /\
  take 2 (drop 22 (zeros 24)) = [x00; x00] /\
  exists m' m'',
    ICMP4Header_Marshal maxUint16 echo_request (whole (zeros 24)) (zeros 24)
      = Some (None, m') /\
    ICMP4Header_Marshal maxUint16 echo_request (whole m') m' = Some (None, m'') /\
    take 22 m'' = take 22 m' /\
    take 2 (drop 22 m'') = [x00; x00] /\
    drop 24 m'' = drop 24 m' /\
    (m'' = m' <-> take 2 (drop 22 m') = [x00; x00]) /\
    (take 2 (drop 22 m') <> [x00; x00] -> m'' <> m').
Proof.
  split; [decide_now|]. split; [decide_now|]. split; [reflexivity|].
  apply (ICMP4Header_Marshal_twice maxUint16 echo_request (zeros 24)); decide_now.
Defined.

(** The echo request on 24 zero bytes: the first call writes the
    checksum 0xf7ff, the second 0x0000, and the two buffers differ. *)
Example ICMP4Header_Marshal_twice_differs :
  exists m' m'',
    ICMP4Header_Marshal maxUint16 echo_request (whole (zeros 24)) (zeros 24)
      = Some (None, m') /\
    ICMP4Header_Marshal maxUint16 echo_request (whole m') m' = Some (None, m'') /\
    take 2 (drop 22 m') = [xf7; xff] /\
    take 2 (drop 22 m'') = [x00; x00] /\
    m'' <> m'.
Proof.
  eexists _, _. split; [vm_compute; reflexivity|].
  split; [vm_compute; reflexivity|].
  split; [reflexivity|]. split; [reflexivity|]. discriminate.
Qed.

Lemma IP4Header_Marshal_ToResponse_witness :
  20 <= Z.of_nat (length (zeros 20)) <= maxUint16 /\
  20 <= Z.of_nat (length dirty_buffer) <= maxUint16 /\
  exists m1' m2',
    IP4Header_Marshal maxUint16 tcp_header (whole (zeros 20)) (zeros 20)
      = Some (None, m1') /\
    IP4Header_Marshal maxUint16 (IP4Header_ToResponse tcp_header)
      (whole dirty_buffer) dirty_buffer = Some (None, m2') /\
    take 4 (drop 12 m2') = take 4 (drop 16 m1') /\
    take 4 (drop 16 m2') = take 4 (drop 12 m1') /\
    m2' !! 9%nat = m1' !! 9%nat.
Proof.
  split; [decide_now|]. split; [decide_now|].
  apply (IP4Header_Marshal_ToResponse maxUint16 tcp_header (zeros 20) dirty_buffer);
    decide_now.
Defined.

Lemma IP4Header_MarshalPseudo_length_witness :
  20 <= Z.of_nat (length dirty_buffer) <= maxUint16 /\
  maxUint16 <= 65535 /\
  exists m',
    IP4Header_MarshalPseudo maxUint16 tcp_header (whole dirty_buffer) dirty_buffer
      = Some (None, m') /\
    be_decode (take 2 (drop 18 m')) = Z.of_nat (length dirty_buffer) - 20.
Proof.
  split; [decide_now|]. split; [decide_now|].
  apply (IP4Header_MarshalPseudo_length maxUint16 tcp_header dirty_buffer); decide_now.
Defined.

Lemma ICMP4Header_ToResponse_twice_witness :
  0 <= echo_request.(IP4Hdr).(IPID) < 65536 /\
  ICMP4Header_ToResponse (ICMP4Header_ToResponse echo_request)
  = {| IP4Hdr := echo_request.(IP4Hdr);
       Type_ := ICMP4EchoReply; Code := ICMP4NoCode |}.
Proof.
  split; [decide_now|].
  apply (ICMP4Header_ToResponse_twice echo_request). decide_now.
Defined.

Lemma IP4Header_ToResponse_IPID_witness :
  0 <= tcp_header.(IPID) < 65536 /\ 0 <= echo_request.(IP4Hdr).(IPID) < 65536 /\
  (((IP4Header_ToResponse tcp_header).(IPID)
    = (IP4Header_ToResponse echo_request.(IP4Hdr)).(IPID) ->
    tcp_header.(IPID) = echo_request.(IP4Hdr).(IPID)) /\
   (IP4Header_ToResponse tcp_header).(IPID) <> tcp_header.(IPID)).
Proof.
  split; [decide_now|]. split; [decide_now|].
  apply (IP4Header_ToResponse_IPID tcp_header echo_request.(IP4Hdr)); decide_now.
Defined.
